(** * Retrieval-and-learning engine: document store client, RAG service and
      conversation learning service.

    Shallow embedding of
      - [app/config.py]                        (the settings the engine reads),
      - [app/clients/elasticsearch_client.py]  (class [ElasticsearchClient]),
      - [app/services/rag_service.py]          (class [RAGService]),
      - [app/services/learning_service.py]     (class [LearningService]).

    The Python code is asynchronous I/O against two external collaborators:
    an Elasticsearch server and an embedding provider.  Both live in the
    [world]; every coroutine becomes a function in the state-and-exception
    monad [M] over that world.  The world also keeps a log of every request
    sent to a collaborator, so that statements such as "two embedding calls"
    or "the search asked for 10*k candidates" are statements about the log. *)

From Stdlib Require Import ZArith QArith Qabs List Ascii String Sorting.Sorted.
From stdpp Require Import base option list gmap strings pretty.

Set Warnings "-register-all".

Local Open Scope string_scope.
Local Open Scope list_scope.
Local Open Scope Z_scope.

(** ** JSON-like values: Python dicts, lists of floats, strings, None *)

Inductive value : Type :=
| VNone
| VInt (z : Z)
| VFloat (q : Q)
| VStr (s : string)
| VVec (v : list Q)
| VDict (d : gmap string value).

(** A document is a Python [dict] with string keys. *)
Abbreviation doc := (gmap string value).

(** [d.get(k)] of a Python dict: [None] when the key is missing. *)
Definition dict_get (d : doc) (k : string) : value :=
  default VNone (d !! k).

(** Python truthiness of the values the code tests with [or] / [not]. *)
Definition py_or_str (a : option string) (b : string) : string :=
  match a with
  | Some s => if decide (s = EmptyString) then b else s
  | None => b
  end.

Definition py_or_int (a : option Z) (b : Z) : Z :=
  match a with
  | Some z => if Z.eqb z 0 then b else z
  | None => b
  end.

Definition py_or_float (a : option Q) (b : Q) : Q :=
  match a with
  | Some q => if Qeq_bool q 0 then b else q
  | None => b
  end.

Definition opt_str (a : option string) : value :=
  match a with Some s => VStr s | None => VNone end.

Definition opt_float (a : option Q) : value :=
  match a with Some q => VFloat q | None => VNone end.

Definition py_truthy (v : value) : bool :=
  match v with
  | VNone => false
  | VInt z => negb (Z.eqb z 0)
  | VFloat q => negb (Qeq_bool q 0)
  | VStr s => negb (bool_decide (s = EmptyString))
  | VVec l => negb (bool_decide (l = []))
  | VDict d => negb (bool_decide (d = ∅))
  end.

Definition py_or (a b : value) : value := if py_truthy a then a else b.

Definition nl : string := String "010"%char EmptyString.

(** ** Exceptions *)

Inductive exn : Type :=
| ConnectionError                  (* transport failure of the ES client    *)
| NotFoundError                    (* 404: missing index or document        *)
| BadRequestError                  (* 400: rejected request or document     *)
| BulkIndexError (errors : nat)    (* elasticsearch.helpers                 *)
| ProviderError                    (* embedding provider call failed        *)
| KeyError (k : string)
| AttributeError
| ValidationError                  (* pydantic model validation             *)
| ValueError
| ElasticsearchError               (* app.utils.errors                      *)
| RAGError.                        (* app.utils.errors                      *)

(** ** Index schemas (the [body] of [indices.create]) *)

Inductive field_type : Type :=
| FKeyword
| FText
| FDate
| FFloat
| FDenseVector (dims : Z)          (* similarity is always "cosine" *)
| FObject (props : list (string * field_type)).

Record index_body : Type := {
  properties : list (string * field_type);
  number_of_shards : Z;
  number_of_replicas : Z;
  index_knn : bool
}.

Fixpoint field_lookup (ps : list (string * field_type)) (k : string)
  : option field_type :=
  match ps with
  | [] => None
  | (k', t) :: ps' => if decide (k' = k) then Some t else field_lookup ps' k
  end.

(** ** Requests the code sends *)

Inductive search_body : Type :=
| Knn (field : string) (query_vector : list Q) (k num_candidates : Z)
      (min_score : Q)
| MultiMatch (query : string) (fields : list string) (fuzziness : string).

Record bulk_action : Type := {
  a_index : string;
  a_id : value;
  a_source : doc
}.

Inductive es_request : Type :=
| ReqExists (index : string)
| ReqCreate (index : string) (body : index_body)
| ReqIndex (index id : string) (document : doc)
| ReqUpdate (index id : string) (partial : doc)
| ReqGet (index id : string)
| ReqSearch (index : string) (body : search_body) (size : Z)
| ReqBulk (actions : list bulk_action).

Inductive provider_request : Type :=
| LocalEncode (model_name text : string)
| OpenAIEmbed (model text : string).

(** ** The world *)

Record index_state : Type := {
  ix_body : index_body;
  ix_docs : gmap string doc
}.

Record world : Type := {
  indices : gmap string index_state;    (* the Elasticsearch server             *)
  es_faults : list bool;             (* transport outcome of the next calls  *)
  es_log : list es_request;          (* requests sent to the server          *)
  emb_faults : list bool;            (* provider outcome of the next calls   *)
  emb_log : list provider_request;   (* requests sent to the provider        *)
  clock : nat                        (* reads of [datetime.utcnow()]         *)
}.

(** ** The monad of coroutines *)

Definition M (A : Type) : Type := world -> (exn + A) * world.

Definition ret {A} (a : A) : M A := fun w => (inr a, w).

Definition raise {A} (e : exn) : M A := fun w => (inl e, w).

Definition bind {A B} (m : M A) (f : A -> M B) : M B :=
  fun w => match m w with
           | (inr a, w') => f a w'
           | (inl e, w') => (inl e, w')
           end.

(** [try: body except Exception as e: handler e]; every [exn] above is a
    subclass of [Exception]. *)
Definition try_except {A} (body : M A) (handler : exn -> M A) : M A :=
  fun w => match body w with
           | (inl e, w') => handler e w'
           | r => r
           end.

#[global] Instance M_ret : MRet M := @ret.
#[global] Instance M_bind : MBind M := fun A B f m => bind m f.

(** Result and final world of a run. *)
Definition returns {A} (m : M A) (w : world) (a : A) (w' : world) : Prop :=
  m w = (inr a, w').
Definition raises {A} (m : M A) (w : world) (e : exn) : Prop :=
  fst (m w) = inl e.

(** Field updates of the world. *)
Definition with_indices (ixs : gmap string index_state) (w : world) : world :=
  {| indices := ixs; es_faults := es_faults w; es_log := es_log w;
     emb_faults := emb_faults w; emb_log := emb_log w; clock := clock w |}.

Definition es_sent (req : es_request) (w : world) : world :=
  {| indices := indices w; es_faults := tail (es_faults w);
     es_log := es_log w ++ [req];
     emb_faults := emb_faults w; emb_log := emb_log w; clock := clock w |}.

Definition emb_sent (req : provider_request) (w : world) : world :=
  {| indices := indices w; es_faults := es_faults w; es_log := es_log w;
     emb_faults := tail (emb_faults w); emb_log := emb_log w ++ [req];
     clock := clock w |}.

Definition tick (w : world) : world :=
  {| indices := indices w; es_faults := es_faults w; es_log := es_log w;
     emb_faults := emb_faults w; emb_log := emb_log w; clock := S (clock w) |}.

(** One round trip to the Elasticsearch server: the request is logged, the
    next transport outcome is consumed, and unless the transport fails the
    server handler [serve] answers from (and may change) the indices. *)
Definition transport {A} (req : es_request)
    (serve : gmap string index_state -> exn + (A * gmap string index_state)) : M A :=
  fun w =>
    let w1 := es_sent req w in
    match es_faults w with
    | true :: _ => (inl ConnectionError, w1)
    | _ => match serve (indices w) with
           | inl e => (inl e, w1)
           | inr (a, ixs) => (inr a, with_indices ixs w1)
           end
    end.

(** One call of the embedding provider, answering [out] unless it fails. *)
Definition provider_call (req : provider_request) (out : list Q)
  : M (list Q) :=
  fun w =>
    let w1 := emb_sent req w in
    match emb_faults w with
    | true :: _ => (inl ProviderError, w1)
    | _ => (inr out, w1)
    end.

(** [datetime.utcnow()]: successive reads see successive instants. *)
Definition utcnow : M nat := fun w => (inr (clock w), tick w).

(** ** The Elasticsearch server and its client library

    The server and the [elasticsearch] Python package are not part of the
    repository.  What follows is the contract the code relies on: the
    documented behaviour of the REST operations the code invokes and of
    [elasticsearch.helpers.async_bulk] with the arguments the code passes. *)

Record hit : Type := {
  h_id : string;
  h_score : Q;
  h_source : doc
}.

(** Hits are ranked by descending [_score]. *)
Fixpoint insert_hit (h : hit) (l : list hit) : list hit :=
  match l with
  | [] => [h]
  | x :: l' => if Qle_bool (h_score x) (h_score h)
               then h :: x :: l'
               else x :: insert_hit h l'
  end.

Definition rank (l : list hit) : list hit := foldr insert_hit [] l.

(** Split a list of actions into chunks of at most [S n] actions. *)
Fixpoint chunks_fuel {A} (fuel n : nat) (l : list A) : list (list A) :=
  match fuel, l with
  | _, [] => []
  | O, _ => [l]
  | S fuel', _ => take (S n) l :: chunks_fuel fuel' n (drop (S n) l)
  end.

Definition chunks {A} (n : nat) (l : list A) : list (list A) :=
  chunks_fuel (length l) n l.

Definition dynamic_body : index_body :=
  {| properties := []; number_of_shards := 1; number_of_replicas := 1;
     index_knn := false |}.

(** A document is rejected when a field mapped as [dense_vector] holds
    something other than a vector of the declared dimension. *)
Definition field_accepted (d : doc) (p : string * field_type) : bool :=
  match p.2 with
  | FDenseVector n =>
      match d !! p.1 with
      | None | Some VNone => true
      | Some (VVec v) => Z.eqb (Z.of_nat (length v)) n
      | Some _ => false
      end
  | _ => true
  end.

Definition doc_accepted (b : index_body) (d : doc) : bool :=
  forallb (field_accepted d) (properties b).

Inductive bulk_failed : Type :=
| FailedCount (n : nat)
| FailedItems (items : list bulk_action).

Definition put_doc (name id : string) (ix : index_state) (d : doc)
    (ixs : gmap string index_state) : gmap string index_state :=
  <[name := {| ix_body := ix_body ix; ix_docs := <[id := d]> (ix_docs ix) |}]> ixs.

(** ** app/config.py *)

Record Settings : Type := {
  use_local_models : bool;
  openai_api_key : option string;
  openai_embedding_model : string;
  embedding_dimension : Z;
  elasticsearch_index_name : string;
  elasticsearch_index : option string;
  max_context_chunks : Z;
  min_similarity_score : Q
}.

(** [Settings.es_index] *)
Definition es_index (s : Settings) : string :=
  py_or_str (elasticsearch_index s) (elasticsearch_index_name s).

(** ** The environment of the engine

    Everything the code reads from outside itself, fixed for one run of the
    system. *)
Class Environment : Type := {
  (** the process-wide [settings] object *)
  settings : Settings;
  (** the server's [_score] of a stored vector against a query vector
      (cosine similarity, a floating-point computation of the server) *)
  knn_similarity : list Q -> list Q -> Q;
  (** the server's [_score] of a stored document against a full-text query
      on the given fields; [None]: the document does not match *)
  match_score : string -> list string -> doc -> option Q;
  (** the identifier the server generates for a document sent without one *)
  auto_id : gmap string doc -> string;
  (** renderings of [datetime.utcnow()]: [str(t.timestamp())] and
      [t.isoformat()]; of [uuid.uuid4()]; [str()] of a non-string value *)
  timestamp_str : nat -> string;
  isoformat : nat -> string;
  uuid_str : nat -> string;
  repr : value -> string;
  (** the embedding providers: what the local sentence-transformers model
      and the OpenAI embeddings endpoint answer for a model and a text *)
  local_encode : string -> string -> list Q;
  openai_embed : string -> string -> list Q;
  (** the [LOCAL_EMBEDDING_MODEL] environment variable, and whether loading
      a local model succeeds *)
  env_LOCAL_EMBEDDING_MODEL : option string;
  model_loads : string -> bool
}.

Section Engine.

Context {env : Environment}.

(** [indices.exists] *)
Definition serve_exists (name : string) (ixs : gmap string index_state)
  : exn + (bool * gmap string index_state) :=
  inr (bool_decide (is_Some (ixs !! name)), ixs).

(** [indices.create]: creating an index that exists is an error. *)
Definition serve_create (name : string) (body : index_body)
    (ixs : gmap string index_state) : exn + (unit * gmap string index_state) :=
  match ixs !! name with
  | Some _ => inl BadRequestError
  | None => inr (tt, <[name := {| ix_body := body; ix_docs := ∅ |}]> ixs)
  end.

(** [index]: upsert by id; a missing index is created on the fly with a
    dynamic mapping. *)
Definition serve_index (name id : string) (d : doc)
    (ixs : gmap string index_state) : exn + (unit * gmap string index_state) :=
  let ix := default {| ix_body := dynamic_body; ix_docs := ∅ |} (ixs !! name) in
  if doc_accepted (ix_body ix) d
  then inr (tt, put_doc name id ix d ixs)
  else inl BadRequestError.

(** [update] with a partial document (no upsert): the fields of [partial]
    replace those of the stored document; a missing document is an error. *)
Definition serve_update (name id : string) (partial : doc)
    (ixs : gmap string index_state) : exn + (unit * gmap string index_state) :=
  match ixs !! name with
  | None => inl NotFoundError
  | Some ix =>
      match ix_docs ix !! id with
      | None => inl NotFoundError
      | Some d =>
          if doc_accepted (ix_body ix) (partial ∪ d)
          then inr (tt, put_doc name id ix (partial ∪ d) ixs)
          else inl BadRequestError
      end
  end.

(** [get]: the [_source] of the response. *)
Definition serve_get (name id : string) (ixs : gmap string index_state)
  : exn + (doc * gmap string index_state) :=
  match ixs !! name with
  | None => inl NotFoundError
  | Some ix =>
      match ix_docs ix !! id with
      | None => inl NotFoundError
      | Some d => inr (d, ixs)
      end
  end.

Definition knn_candidate (field : string) (qv : list Q)
    (p : string * doc) : option hit :=
  match p.2 !! field with
  | Some (VVec v) =>
      Some {| h_id := p.1; h_score := knn_similarity qv v; h_source := p.2 |}
  | _ => None
  end.

Definition match_candidate (q : string) (fields : list string)
    (p : string * doc) : option hit :=
  match match_score q fields p.2 with
  | Some s => Some {| h_id := p.1; h_score := s; h_source := p.2 |}
  | None => None
  end.

(** [search]: [response["hits"]["hits"]].  A kNN search ranks the stored
    vectors of [field], keeps the [k] best of [num_candidates] candidates,
    drops those scoring below [min_score] and returns at most [size]. *)
Definition search_hits (ix : index_state) (body : search_body) (size : Z)
  : exn + list hit :=
  if size <? 0 then inl BadRequestError else
  match body with
  | Knn field qv k nc ms =>
      match field_lookup (properties (ix_body ix)) field with
      | Some (FDenseVector n) =>
          if negb (Z.of_nat (length qv) =? n) then inl BadRequestError
          else if (k <? 1) || (nc <? k) || (10000 <? nc)
          then inl BadRequestError
          else
            let ranked :=
              rank (omap (knn_candidate field qv) (map_to_list (ix_docs ix))) in
            let nearest := take (Z.to_nat k) (take (Z.to_nat nc) ranked) in
            inr (take (Z.to_nat size)
                   (filter (fun h => Qle_bool ms (h_score h) = true) nearest))
      | _ => inl BadRequestError
      end
  | MultiMatch q fields _ =>
      inr (take (Z.to_nat size)
             (rank (omap (match_candidate q fields) (map_to_list (ix_docs ix)))))
  end.

Definition serve_search (name : string) (body : search_body) (size : Z)
    (ixs : gmap string index_state) : exn + (list hit * gmap string index_state) :=
  match ixs !! name with
  | None => inl NotFoundError
  | Some ix =>
      match search_hits ix body size with
      | inl e => inl e
      | inr hs => inr (hs, ixs)
      end
  end.

(** One item of a [_bulk] request is an [index] operation of its own: it
    succeeds or fails without affecting the other items. *)
Definition bulk_item_id (ixs : gmap string index_state) (a : bulk_action)
  : option string :=
  match a_id a with
  | VStr s => Some s
  | VInt z => Some (pretty z)
  | VNone =>
      Some (auto_id (default ∅ (ix_docs <$> (ixs !! a_index a))))
  | _ => None
  end.

Definition serve_bulk_item (a : bulk_action) (ixs : gmap string index_state)
  : bool * gmap string index_state :=
  match bulk_item_id ixs a with
  | None => (false, ixs)
  | Some id =>
      match serve_index (a_index a) id (a_source a) ixs with
      | inr (_, ixs') => (true, ixs')
      | inl _ => (false, ixs)
      end
  end.

Fixpoint serve_bulk (acts : list bulk_action) (ixs : gmap string index_state)
  : list bool * gmap string index_state :=
  match acts with
  | [] => ([], ixs)
  | a :: acts' =>
      let r := serve_bulk_item a ixs in
      let rs := serve_bulk acts' r.2 in
      (r.1 :: rs.1, rs.2)
  end.

(** The actions of a chunk the server answered with an error status. *)
Definition failed_items (oks : list bool) (acts : list bulk_action)
  : list bulk_action :=
  (filter (fun p => p.1 = false) (zip oks acts)).*2.

(** [elasticsearch.helpers.async_streaming_bulk]: the actions are sent chunk
    by chunk; with [raise_on_error] a chunk with failed items raises
    [BulkIndexError] once the server has processed the chunk. *)
Fixpoint streaming_bulk (raise_on_error : bool)
    (cs : list (list bulk_action)) : M (nat * list bulk_action) :=
  match cs with
  | [] => mret (O, [])
  | c :: cs' =>
      oks ← transport (ReqBulk c) (fun ixs => inr (serve_bulk c ixs));
      let errors := failed_items oks c in
      if raise_on_error && negb (bool_decide (errors = []))
      then raise (BulkIndexError (length errors))
      else
        rest ← streaming_bulk raise_on_error cs';
        mret ((length (filter (fun b => b = true) oks) + rest.1)%nat,
              errors ++ rest.2)
  end.

(** [elasticsearch.helpers.async_bulk(client, actions, stats_only=False,
    raise_on_error=True, chunk_size=500)]: the number of successes, and the
    number of failures with [stats_only], the list of failed items
    otherwise. *)
Definition async_bulk (actions : list bulk_action)
    (stats_only raise_on_error : bool) (chunk_size : nat)
  : M (nat * bulk_failed) :=
  r ← streaming_bulk raise_on_error (chunks (pred chunk_size) actions);
  mret (r.1, if stats_only then FailedCount (length r.2)
             else FailedItems r.2).


Definition py_str (v : value) : string :=
  match v with VStr s => s | _ => repr v end.

Definition uuid4 : M string := fun w => (inr (uuid_str (clock w)), tick w).

(** ** app/clients/elasticsearch_client.py *)

Record ElasticsearchClient : Type := { index_name : string }.

(** [ElasticsearchClient.__init__]: the index name comes from the settings;
    the connection itself is the [world]. *)
Definition ElasticsearchClient_init : ElasticsearchClient :=
  {| index_name := es_index settings |}.

Record search_result : Type := {
  r_id : string;
  r_score : Q;
  r_text : value;
  r_metadata : value
}.

Record bulk_result : Type := {
  success : nat;
  failed : bulk_failed
}.

(** The first failing step of a loop aborts it. *)
Fixpoint collect {A B} (f : A -> exn + B) (l : list A) : exn + list B :=
  match l with
  | [] => inr []
  | x :: l' =>
      match f x with
      | inl e => inl e
      | inr y => match collect f l' with
                 | inl e => inl e
                 | inr ys => inr (y :: ys)
                 end
      end
  end.

Definition lift {A} (r : exn + A) : M A := fun w => (r, w).

(** The [mapping] dictionary of [create_index]. *)
Definition kb_mapping (embedding_dims : Z) : index_body :=
  {| properties :=
       [ ("id", FKeyword);
         ("text", FText);
         ("embedding", FDenseVector embedding_dims);
         ("metadata", FObject [ ("source", FKeyword);
                                ("doc_type", FKeyword);
                                ("product", FKeyword);
                                ("language", FKeyword);
                                ("created_at", FDate) ]) ];
     number_of_shards := 1;
     number_of_replicas := 0;
     index_knn := false |}.

(** [ElasticsearchClient.create_index].  [settings] always has the attribute
    [embedding_dimension], so the [hasattr] test is true. *)
Definition create_index (self : ElasticsearchClient)
    (index_name_arg : option string) : M bool :=
  let index_name := py_or_str index_name_arg (index_name self) in
  let embedding_dims := embedding_dimension settings in
  let mapping := kb_mapping embedding_dims in
  try_except
    (ex ← transport (ReqExists index_name) (serve_exists index_name);
     if ex : bool then mret true
     else
       _ ← transport (ReqCreate index_name mapping)
             (serve_create index_name mapping);
       mret true)
    (fun _ => raise ElasticsearchError).

(** [ElasticsearchClient.index_document] *)
Definition index_document (self : ElasticsearchClient)
    (doc_id : option string) (document : option doc)
    (index : option string) : M bool :=
  try_except
    (let index_name := py_or_str index (index_name self) in
     doc_id ← match doc_id with
              | Some s => if decide (s = EmptyString) then uuid4 else mret s
              | None => uuid4
              end;
     match document with
     | None => raise ValueError
     | Some d =>
         _ ← transport (ReqIndex index_name doc_id d)
               (serve_index index_name doc_id d);
         mret true
     end)
    (fun _ => raise ElasticsearchError).

(** One element of [actions] in [bulk_index]. *)
Definition bulk_action_of (self : ElasticsearchClient) (d : doc)
  : bulk_action :=
  {| a_index := index_name self; a_id := dict_get d "id"; a_source := d |}.

(** [ElasticsearchClient.bulk_index]: [async_bulk(self.client, actions)], with
    the defaults of the helper for everything else. *)
Definition bulk_index (self : ElasticsearchClient) (documents : list doc)
  : M bulk_result :=
  let actions := map (bulk_action_of self) documents in
  try_except
    (r ← async_bulk actions false true 500;
     mret {| success := r.1; failed := r.2 |})
    (fun _ => raise ElasticsearchError).

(** The [query] dictionary of [keyword_search]. *)
Definition keyword_query (query_text : string) : search_body :=
  MultiMatch query_text ["text^2"; "question"; "answer"] "AUTO".

(** One iteration of the loop over the hits in [keyword_search]. *)
Definition keyword_result (h : hit) : exn + search_result :=
  inr {| r_id := h_id h;
         r_score := h_score h;
         r_text := py_or (dict_get (h_source h) "text")
                         (default (VStr EmptyString) (h_source h !! "answer"));
         r_metadata := default (VDict ∅) (h_source h !! "metadata") |}.

(** [ElasticsearchClient.keyword_search] *)
Definition keyword_search (self : ElasticsearchClient)
    (query_text : string) (top_k : Z) : M (list search_result) :=
  let query := keyword_query query_text in
  try_except
    (hits ← transport (ReqSearch (index_name self) query top_k)
              (serve_search (index_name self) query top_k);
     lift (collect keyword_result hits))
    (fun _ => raise ElasticsearchError).

(** The [query] dictionary of [vector_search], after
    [min_score = min_score or settings.min_similarity_score]. *)
Definition vector_query (query_vector : list Q) (top_k : Z)
    (min_score : option Q) : search_body :=
  let min_score := py_or_float min_score (min_similarity_score settings) in
  Knn "embedding" query_vector top_k (top_k * 10) min_score.

(** One iteration of the loop over the hits in [vector_search];
    [hit["_source"]["text"]] raises [KeyError] on a hit without text. *)
Definition vector_result (h : hit) : exn + search_result :=
  match h_source h !! "text" with
  | None => inl (KeyError "text")
  | Some t =>
      inr {| r_id := h_id h;
             r_score := h_score h;
             r_text := t;
             r_metadata := default (VDict ∅) (h_source h !! "metadata") |}
  end.

(** [ElasticsearchClient.vector_search] *)
Definition vector_search (self : ElasticsearchClient)
    (query_vector : list Q) (top_k : Z) (min_score : option Q)
  : M (list search_result) :=
  let query := vector_query query_vector top_k min_score in
  try_except
    (hits ← transport (ReqSearch (index_name self) query top_k)
              (serve_search (index_name self) query top_k);
     lift (collect vector_result hits))
    (fun _ => raise ElasticsearchError).

(** ** app/services/rag_service.py *)

Record LocalEmbeddingService : Type := { model_name : string }.
Record AsyncOpenAI : Type := { api_key : string }.

Record RAGService : Type := {
  es_client : ElasticsearchClient;
  max_chunks : Z;
  use_local : bool;
  embedding_service : option LocalEmbeddingService;
  openai_client : option AsyncOpenAI;
  embedding_model : string;
  use_keyword_search : bool
}.

(** [RAGService.__init__].  The constructor does no I/O on the server; it
    raises [ValueError] when OpenAI embeddings are selected without a key. *)
Definition RAGService_init (es : ElasticsearchClient)
    (config_settings : option Settings) : exn + RAGService :=
  let cfg := default settings config_settings in
  if use_local_models cfg then
    let name := default "all-MiniLM-L6-v2" env_LOCAL_EMBEDDING_MODEL in
    if model_loads name then
      inr {| es_client := es; max_chunks := max_context_chunks cfg;
             use_local := true;
             embedding_service := Some {| model_name := name |};
             openai_client := None;
             embedding_model := "local";
             use_keyword_search := false |}
    else
      inr {| es_client := es; max_chunks := max_context_chunks cfg;
             use_local := true;
             embedding_service := None;
             openai_client := None;
             embedding_model := "none";
             use_keyword_search := true |}
  else
    match openai_api_key cfg with
    | Some key =>
        if decide (key = EmptyString) then inl ValueError
        else
          inr {| es_client := es; max_chunks := max_context_chunks cfg;
                 use_local := false;
                 embedding_service := None;
                 openai_client := Some {| api_key := key |};
                 embedding_model := openai_embedding_model cfg;
                 use_keyword_search := false |}
    | None => inl ValueError
    end.

(** [RAGService.generate_embedding] *)
Definition generate_embedding (self : RAGService) (text : string)
  : M (list Q) :=
  try_except
    (if use_local self then
       match embedding_service self with
       | Some svc =>
           provider_call (LocalEncode (model_name svc) text)
                         (local_encode (model_name svc) text)
       | None => raise AttributeError
       end
     else
       match openai_client self with
       | Some _ =>
           provider_call (OpenAIEmbed (embedding_model self) text)
                         (openai_embed (embedding_model self) text)
       | None => raise AttributeError
       end)
    (fun _ => raise RAGError).

(** app/models.py *)
Record RetrievedDocument : Type := {
  d_id : string;
  d_text : string;
  d_score : Q;
  d_metadata : doc
}.

Record RAGContext : Type := {
  documents : list RetrievedDocument;
  formatted_context : string
}.

(** The pydantic constructor validates [text: str] and
    [metadata: Dict[str, Any]]. *)
Definition RetrievedDocument_init (r : search_result)
  : exn + RetrievedDocument :=
  match r_text r, r_metadata r with
  | VStr t, VDict m =>
      inr {| d_id := r_id r; d_text := t; d_score := r_score r;
             d_metadata := m |}
  | _, _ => inl ValidationError
  end.

(** One entry of [parts] in [_format_context]. *)
Definition format_part (i : nat) (d : RetrievedDocument) : string :=
  let source := default (VStr "unknown") (d_metadata d !! "source") in
  "[" +:+ pretty i +:+ "] " +:+ d_text d +:+ " (Source: "
      +:+ py_str source +:+ ")".

(** [sep.join(parts)] *)
Fixpoint join (sep : string) (parts : list string) : string :=
  match parts with
  | [] => EmptyString
  | [p] => p
  | p :: ps => p +:+ sep +:+ join sep ps
  end.

(** [RAGService._format_context] *)
Definition _format_context (documents : list RetrievedDocument) : string :=
  match documents with
  | [] => "No relevant context available."
  | _ =>
      let parts := imap (fun i d => format_part (S i) d) documents in
      join (nl +:+ nl) parts
  end.

(** [RAGService.retrieve_context] *)
Definition retrieve_context (self : RAGService) (query : string)
    (top_k : option Z) (min_score : option Q) : M RAGContext :=
  let top_k := py_or_int top_k (max_chunks self) in
  try_except
    (results ←
       (if use_keyword_search self then
          keyword_search (es_client self) query top_k
        else
          query_embedding ← generate_embedding self query;
          vector_search (es_client self) query_embedding top_k min_score);
     documents ← lift (collect RetrievedDocument_init results);
     let formatted_context := _format_context documents in
     mret {| documents := documents;
             formatted_context := formatted_context |})
    (fun _ => raise RAGError).

(** ** app/services/learning_service.py *)

Record LearningService : Type := {
  ls_es_client : ElasticsearchClient;
  rag_service : RAGService;
  learning_index : string
}.

(** [LearningService.__init__] *)
Definition LearningService_init (es : ElasticsearchClient)
    (rag : RAGService) : LearningService :=
  {| ls_es_client := es; rag_service := rag;
     learning_index := elasticsearch_index_name settings +:+ "_conversations" |}.

(** The [mapping] dictionary of [ensure_learning_index]. *)
Definition learning_mapping : index_body :=
  {| properties :=
       [ ("id", FKeyword);
         ("question", FText);
         ("question_embedding", FDenseVector 1536);
         ("answer", FText);
         ("answer_embedding", FDenseVector 1536);
         ("user_id", FKeyword);
         ("chat_id", FKeyword);
         ("timestamp", FDate);
         ("feedback", FKeyword);
         ("context_used", FText);
         ("metadata", FObject [ ("channel", FKeyword);
                                ("session_id", FKeyword);
                                ("language", FKeyword);
                                ("processing_time_ms", FFloat) ]) ];
     number_of_shards := 1;
     number_of_replicas := 0;
     index_knn := true |}.

(** [LearningService.ensure_learning_index] *)
Definition ensure_learning_index (self : LearningService) : M bool :=
  let mapping := learning_mapping in
  try_except
    (ex ← transport (ReqExists (learning_index self))
            (serve_exists (learning_index self));
     _ ← (if negb ex then
            transport (ReqCreate (learning_index self) mapping)
              (serve_create (learning_index self) mapping)
          else mret tt);
     mret true)
    (fun _ => mret false).

(** The [document] dictionary of [store_conversation]. *)
Definition conversation_document (doc_id question : string)
    (question_embedding : list Q) (answer : string)
    (answer_embedding : list Q) (user_id chat_id : option string)
    (timestamp : string) (context_used : option string) (channel : string)
    (session_id : option string) (processing_time_ms : option Q) : doc :=
  <["id" := VStr doc_id]>
  (<["question" := VStr question]>
  (<["question_embedding" := VVec question_embedding]>
  (<["answer" := VStr answer]>
  (<["answer_embedding" := VVec answer_embedding]>
  (<["user_id" := opt_str user_id]>
  (<["chat_id" := opt_str chat_id]>
  (<["timestamp" := VStr timestamp]>
  (<["feedback" := VStr "neutral"]>
  (<["context_used" := opt_str context_used]>
  (<["metadata" := VDict
       (<["channel" := VStr channel]>
       (<["session_id" := opt_str session_id]>
       (<["language" := VStr "auto"]>
       (<["processing_time_ms" := opt_float processing_time_ms]> ∅))))]>
   ∅)))))))))).

(** [LearningService.store_conversation].  [doc_id] and the [timestamp] field
    come from two successive reads of the clock. *)
Definition store_conversation (self : LearningService)
    (question answer : string) (user_id chat_id context_used : option string)
    (channel : string) (session_id : option string)
    (processing_time_ms : option Q) : M bool :=
  try_except
    (question_embedding ← generate_embedding (rag_service self) question;
     answer_embedding ← generate_embedding (rag_service self) answer;
     t_id ← utcnow;
     let doc_id :=
       "conv_" +:+ timestamp_str t_id +:+ "_" +:+ py_or_str user_id "anon" in
     t_doc ← utcnow;
     let document :=
       conversation_document doc_id question question_embedding answer
         answer_embedding user_id chat_id (isoformat t_doc) context_used
         channel session_id processing_time_ms in
     _ ← transport (ReqIndex (learning_index self) doc_id document)
           (serve_index (learning_index self) doc_id document);
     mret true)
    (fun _ => mret false).

(** The partial document [body["doc"]] of [update_feedback]. *)
Definition feedback_patch (feedback updated_at : string) : doc :=
  <["feedback" := VStr feedback]>
  (<["feedback_updated_at" := VStr updated_at]> ∅).

(** [LearningService.update_feedback] *)
Definition update_feedback (self : LearningService)
    (conversation_id feedback : string) : M bool :=
  try_except
    (t ← utcnow;
     let body := feedback_patch feedback (isoformat t) in
     _ ← transport (ReqUpdate (learning_index self) conversation_id body)
           (serve_update (learning_index self) conversation_id body);
     mret true)
    (fun _ => mret false).

(** [conv[k]] *)
Definition subscript (d : doc) (k : string) : M value :=
  match d !! k with
  | Some v => mret v
  | None => raise (KeyError k)
  end.

(** The [kb_doc] dictionary of [promote_to_knowledge_base]. *)
Definition kb_document (conversation_id : string) (question answer : value)
    (embedding : value) (doc_type product created_at promoted_at : string)
  : doc :=
  <["id" := VStr ("learned_" +:+ conversation_id)]>
  (<["text" := VStr ("Q: " +:+ py_str question +:+ nl +:+ nl +:+ "A: "
                      +:+ py_str answer)]>
  (<["embedding" := embedding]>
  (<["metadata" := VDict
       (<["source" := VStr "learned_from_conversations"]>
       (<["doc_type" := VStr doc_type]>
       (<["product" := VStr product]>
       (<["language" := VStr "en"]>
       (<["created_at" := VStr created_at]>
       (<["original_conversation_id" := VStr conversation_id]>
       (<["promoted_at" := VStr promoted_at]> ∅)))))))]>
   ∅))).

(** [LearningService.promote_to_knowledge_base] *)
Definition promote_to_knowledge_base (self : LearningService)
    (conversation_id doc_type product : string) : M bool :=
  try_except
    (conv ← transport (ReqGet (learning_index self) conversation_id)
              (serve_get (learning_index self) conversation_id);
     question ← subscript conv "question";
     answer ← subscript conv "answer";
     embedding ← subscript conv "question_embedding";
     t_created ← utcnow;
     t_promoted ← utcnow;
     let kb_doc :=
       kb_document conversation_id question answer embedding doc_type
         product (isoformat t_created) (isoformat t_promoted) in
     _ ← index_document (ls_es_client self)
           (Some ("learned_" +:+ conversation_id)) (Some kb_doc) None;
     mret true)
    (fun _ => mret false).

(** ** Vocabulary of the statements *)

Definition descending_hits : list hit -> Prop :=
  StronglySorted (fun a b => (h_score b <= h_score a)%Q).

Definition descending : list search_result -> Prop :=
  StronglySorted (fun a b => (r_score b <= r_score a)%Q).

Definition reachable (faults : list bool) : Prop :=
  Forall (fun b => b = false) faults.

Definition request_text (req : provider_request) : string :=
  match req with
  | LocalEncode _ text => text
  | OpenAIEmbed _ text => text
  end.

(** The document stored under [id] in index [name], if any. *)
Definition stored_doc (w : world) (name id : string) : option doc :=
  ix ← indices w !! name; ix_docs ix !! id.

Definition index_schema (w : world) (name : string) : option index_body :=
  ix_body <$> indices w !! name.

(** Whether an embedding provider can be set up for configuration [cfg]:
    the local model loads, or the OpenAI client is used. *)
Definition provider_available (cfg : Settings) : bool :=
  if use_local_models cfg
  then model_loads (default "all-MiniLM-L6-v2" env_LOCAL_EMBEDDING_MODEL)
  else true.

(** ** Further operations of the client and the services

    The request log has no entry for [ping], [indices.delete] and [count],
    nor for a batch request to the embedding provider; these round trips
    consume the next outcome of their collaborator like any other call. *)

Definition server_called (w : world) : world :=
  {| indices := indices w; es_faults := tail (es_faults w);
     es_log := es_log w;
     emb_faults := emb_faults w; emb_log := emb_log w; clock := clock w |}.

Definition provider_called (w : world) : world :=
  {| indices := indices w; es_faults := es_faults w; es_log := es_log w;
     emb_faults := tail (emb_faults w); emb_log := emb_log w;
     clock := clock w |}.

Definition call_server {A}
    (serve : gmap string index_state -> exn + (A * gmap string index_state))
  : M A :=
  fun w =>
    let w1 := server_called w in
    match es_faults w with
    | true :: _ => (inl ConnectionError, w1)
    | _ => match serve (indices w) with
           | inl e => (inl e, w1)
           | inr (a, ixs) => (inr a, with_indices ixs w1)
           end
    end.

(** [client.ping()] of the library: [True] when the server answers,
    [False] when it does not; the library method itself catches the
    failure. *)
Definition client_ping : M bool :=
  fun w =>
    match es_faults w with
    | true :: _ => (inr false, server_called w)
    | _ => (inr true, server_called w)
    end.

(** [indices.delete]: deleting a missing index is an error. *)
Definition serve_delete (name : string) (ixs : gmap string index_state)
  : exn + (unit * gmap string index_state) :=
  match ixs !! name with
  | None => inl NotFoundError
  | Some _ => inr (tt, delete name ixs)
  end.

(** [count]: [response["count"]], the number of documents of the index. *)
Definition serve_count (name : string) (ixs : gmap string index_state)
  : exn + (nat * gmap string index_state) :=
  match ixs !! name with
  | None => inl NotFoundError
  | Some ix => inr (size (ix_docs ix), ixs)
  end.

(** [ElasticsearchClient.ping] *)
Definition ping (self : ElasticsearchClient) : M bool :=
  try_except client_ping (fun _ => mret false).

(** [ElasticsearchClient.close]: nothing the engine can observe. *)
Definition close (self : ElasticsearchClient) : M unit := mret tt.

(** [ElasticsearchClient.delete_index] *)
Definition delete_index (self : ElasticsearchClient)
    (index_name_arg : option string) : M bool :=
  let index_name := py_or_str index_name_arg (index_name self) in
  try_except
    (_ ← call_server (serve_delete index_name); mret true)
    (fun _ => mret false).

(** [ElasticsearchClient.count_documents] *)
Definition count_documents (self : ElasticsearchClient)
    (index_name_arg : option string) : M nat :=
  let index_name := py_or_str index_name_arg (index_name self) in
  try_except
    (call_server (serve_count index_name))
    (fun _ => mret O).

(** [RAGService.ensure_index] *)
Definition ensure_index (self : RAGService) : M unit :=
  try_except
    (_ ← create_index (es_client self) None; mret tt)
    (fun _ => raise RAGError).

(** One request to the OpenAI embeddings endpoint with a list of inputs:
    one embedding per input, in the order of the inputs. *)
Definition provider_batch_call (outs : list (list Q)) : M (list (list Q)) :=
  fun w =>
    match emb_faults w with
    | true :: _ => (inl ProviderError, provider_called w)
    | _ => (inr outs, provider_called w)
    end.

(** [RAGService.generate_embeddings_batch]: always through
    [self.openai_client], an attribute only the OpenAI branch of the
    constructor sets. *)
Definition generate_embeddings_batch (self : RAGService)
    (texts : list string) : M (list (list Q)) :=
  try_except
    (match openai_client self with
     | Some _ =>
         provider_batch_call (map (openai_embed (embedding_model self)) texts)
     | None => raise AttributeError
     end)
    (fun _ => raise RAGError).

(** One entry of the result of [search_similar_conversations]. *)
Record similar_conversation : Type := {
  s_id : string;
  s_score : Q;
  s_question : value;
  s_answer : value;
  s_timestamp : value;
  s_feedback : value
}.

(** The pure counterpart of [subscript]. *)
Definition item (d : doc) (k : string) : exn + value :=
  match d !! k with
  | Some v => inr v
  | None => inl (KeyError k)
  end.

(** One iteration of the loop over the hits in
    [search_similar_conversations]. *)
Definition similar_result (h : hit) : exn + similar_conversation :=
  match item (h_source h) "question" with
  | inl e => inl e
  | inr q =>
      match item (h_source h) "answer" with
      | inl e => inl e
      | inr a =>
          match item (h_source h) "timestamp" with
          | inl e => inl e
          | inr t =>
              inr {| s_id := h_id h; s_score := h_score h;
                     s_question := q; s_answer := a; s_timestamp := t;
                     s_feedback :=
                       default (VStr "neutral") (h_source h !! "feedback") |}
          end
      end
  end.

(** The [query] dictionary of [search_similar_conversations]. *)
Definition similar_query (question_embedding : list Q) (top_k : Z)
    (min_score : Q) : search_body :=
  Knn "question_embedding" question_embedding top_k (top_k * 10) min_score.

(** [LearningService.search_similar_conversations] *)
Definition search_similar_conversations (self : LearningService)
    (question : string) (top_k : Z) (min_score : Q)
  : M (list similar_conversation) :=
  try_except
    (question_embedding ← generate_embedding (rag_service self) question;
     let query := similar_query question_embedding top_k min_score in
     hits ← transport (ReqSearch (learning_index self) query top_k)
              (serve_search (learning_index self) query top_k);
     lift (collect similar_result hits))
    (fun _ => mret []).

(** ** scripts/create_index.py *)

(** [create_index()] of the script: [ElasticsearchClient()], then ping,
    create, count; [close] in the [finally] clause. *)
Definition script_create_index : M bool :=
  let es_client := ElasticsearchClient_init in
  r ← try_except
        (up ← ping es_client;
         if negb up then mret false
         else
           success ← create_index es_client None;
           if success : bool then
             _ ← count_documents es_client None;
             mret true
           else mret false)
        (fun _ => mret false);
  _ ← close es_client;
  mret r.

(** [delete_and_recreate_index()] *)
Definition delete_and_recreate_index : M bool :=
  let es_client := ElasticsearchClient_init in
  r ← try_except
        (up ← ping es_client;
         if negb up then mret false
         else
           _ ← delete_index es_client None;
           success ← create_index es_client None;
           if success : bool then mret true else mret false)
        (fun _ => mret false);
  _ ← close es_client;
  mret r.

(** ** Python strings

    A string is a sequence of code points below 256. *)

(** [str.isspace] on one character. *)
Definition is_space (c : ascii) : bool :=
  let n := N_of_ascii c in
  ((9 <=? n) && (n <=? 13) || (28 <=? n) && (n <=? 31) || (n =? 32)
   || (n =? 133) || (n =? 160))%N.

(** [bool(s.strip())]: some character of [s] is not white space. *)
Fixpoint strip_truthy (s : string) : bool :=
  match s with
  | EmptyString => false
  | String c s' => negb (is_space c) || strip_truthy s'
  end.

(** [s.split()]: the maximal runs of characters that are not white space;
    [cur] is the run being read. *)
Fixpoint split_from (s : string) (cur : string) : list string :=
  match s with
  | EmptyString => if decide (cur = EmptyString) then [] else [cur]
  | String c s' =>
      if is_space c then
        if decide (cur = EmptyString) then split_from s' EmptyString
        else cur :: split_from s' EmptyString
      else split_from s' (cur +:+ String c EmptyString)
  end.

Definition py_split (s : string) : list string := split_from s EmptyString.

(** [l[start:stop]] for integers of either sign. *)
Definition slice_index (n i : Z) : Z :=
  if i <? 0 then Z.max 0 (i + n) else Z.min i n.

Definition py_slice {A} (l : list A) (start stop : Z) : list A :=
  let n := Z.of_nat (length l) in
  let a := slice_index n start in
  let b := slice_index n stop in
  take (Z.to_nat (b - a)) (drop (Z.to_nat a) l).

(** ** scripts/ingest_docs.py *)

Record DocumentChunker : Type := { chunk_size : Z; overlap : Z }.

(** A chunk: the dictionary with the keys [text] and [metadata]. *)
Record chunk : Type := { chunk_text_of : string; chunk_metadata : doc }.

(** The [while] loop of [chunk_text]; [None] when [fuel] iterations do not
    end it. *)
Fixpoint chunk_loop (fuel : nat) (self : DocumentChunker) (metadata : doc)
    (words : list string) (start chunk_id : Z) (chunks : list chunk)
  : option (list chunk) :=
  match fuel with
  | O => None
  | S fuel' =>
      if start <? Z.of_nat (length words) then
        let end_ := start + chunk_size self in
        let chunk_words := py_slice words start end_ in
        let chunk_text := join " " chunk_words in
        let next := start + (chunk_size self - overlap self) in
        if strip_truthy chunk_text then
          chunk_loop fuel' self metadata words next (chunk_id + 1)
            (chunks ++
               [{| chunk_text_of := chunk_text;
                   chunk_metadata :=
                     <["chunk_size" := VInt (Z.of_nat (length chunk_words))]>
                     (<["chunk_id" := VInt (chunk_id + 1)]> metadata) |}])
        else chunk_loop fuel' self metadata words next chunk_id chunks
      else Some chunks
  end.

(** [DocumentChunker.chunk_text] *)
Definition chunk_text (fuel : nat) (self : DocumentChunker) (text : string)
    (metadata : doc) : option (list chunk) :=
  chunk_loop fuel self metadata (py_split text) 0 0 [].

Record DocumentIngester : Type := {
  di_es_client : ElasticsearchClient;
  di_rag_service : RAGService;
  chunker : DocumentChunker
}.

(** [DocumentIngester.__init__]; [size] and [chunk_overlap] are the values of
    [settings.chunk_size] and [settings.chunk_overlap]. *)
Definition DocumentIngester_init (es : ElasticsearchClient)
    (rag : RAGService) (size chunk_overlap : Z) : DocumentIngester :=
  {| di_es_client := es; di_rag_service := rag;
     chunker := {| chunk_size := size; overlap := chunk_overlap |} |}.

(** A file as [ingest_file] sees it: [file_path.name], [file_path.stem], and
    the text [read_text] returns, if it does. *)
Record source_file : Type := {
  f_name : string;
  f_stem : string;
  f_content : option string
}.

(** The dictionary [ingest_file] returns.  Its [errors] entry is a number on
    the failure paths and [result["failed"]] of [bulk_index] otherwise. *)
Record ingest_result : Type := {
  ir_chunks : nat;
  ir_errors : bulk_failed
}.

(** The [metadata] dictionary of [ingest_file]. *)
Definition file_metadata (file : source_file) (doc_type : string)
    (product : option string) (language created_at : string) : doc :=
  <["source" := VStr (f_name file)]>
  (<["doc_type" := VStr doc_type]>
  (<["product" := VStr (py_or_str product "general")]>
  (<["language" := VStr language]>
  (<["created_at" := VStr created_at]> ∅)))).

(** One element of [documents] in [ingest_file]; [i] counts from 0. *)
Definition chunk_document (file : source_file) (i : nat)
    (p : chunk * list Q) : doc :=
  <["id" := VStr (f_stem file +:+ "_chunk_" +:+ pretty (S i))]>
  (<["text" := VStr (chunk_text_of p.1)]>
  (<["embedding" := VVec p.2]>
  (<["metadata" := VDict (chunk_metadata p.1)]> ∅))).

(** [DocumentIngester.ingest_file]; [None] when the chunking loop does not
    end within [fuel] iterations. *)
Definition ingest_file (fuel : nat) (self : DocumentIngester)
    (file : source_file) (doc_type : string) (product : option string)
    (language : string) : M (option ingest_result) :=
  match f_content file with
  | None => mret (Some {| ir_chunks := 0; ir_errors := FailedCount 1 |})
  | Some content =>
      t ← utcnow;
      let metadata := file_metadata file doc_type product language (isoformat t) in
      match chunk_text fuel (chunker self) content metadata with
      | None => mret None
      | Some chunks =>
          let chunk_texts := map chunk_text_of chunks in
          r ← try_except
                (embeddings ← generate_embeddings_batch (di_rag_service self)
                                chunk_texts;
                 mret (inr embeddings))
                (fun _ =>
                   mret (inl {| ir_chunks := 0;
                                ir_errors := FailedCount (length chunks) |}));
          match r with
          | inl early => mret (Some early)
          | inr embeddings =>
              let documents :=
                imap (chunk_document file) (zip chunks embeddings) in
              try_except
                (result ← bulk_index (di_es_client self) documents;
                 mret (Some {| ir_chunks := success result;
                               ir_errors := failed result |}))
                (fun _ =>
                   mret (Some {| ir_chunks := 0;
                                 ir_errors :=
                                   FailedCount (length documents) |}))
          end
      end
  end.

(** How [ingest_directory] ends: with its dictionary, with the [TypeError]
    of adding a list to the integer [total_errors], with an exception of
    [ingest_file], or not at all. *)
Inductive directory_outcome : Type :=
| Returned (files_processed total_chunks total_errors : nat)
| RaisedTypeError
| Raised (e : exn)
| NoReturn.

(** The loop over the files in [ingest_directory]. *)
Fixpoint ingest_files (fuel : nat) (self : DocumentIngester)
    (files : list source_file) (doc_type : string) (product : option string)
    (language : string) (n total_chunks total_errors : nat)
  : world -> directory_outcome * world :=
  fun w =>
    match files with
    | [] => (Returned n total_chunks total_errors, w)
    | file :: files' =>
        match ingest_file fuel self file doc_type product language w with
        | (inr (Some result), w') =>
            match ir_errors result with
            | FailedCount e =>
                ingest_files fuel self files' doc_type product language n
                  (total_chunks + ir_chunks result) (total_errors + e) w'
            | FailedItems _ => (RaisedTypeError, w')
            end
        | (inr None, w') => (NoReturn, w')
        | (inl e, w') => (Raised e, w')
        end
    end.

(** [DocumentIngester.ingest_directory] on the files the glob finds. *)
Definition ingest_directory (fuel : nat) (self : DocumentIngester)
    (files : list source_file) (doc_type : string) (product : option string)
    (language : string) : world -> directory_outcome * world :=
  ingest_files fuel self files doc_type product language (length files) 0 0.

(** ** scripts/data_ingestion_cli.py *)

(** A document as the text and CSV readers build it: a [content] string and
    a [metadata] dictionary. *)
Record cli_document : Type := { content : string; cli_metadata : doc }.

Record cli_stats : Type := { st_total : nat; st_success : nat; st_failed : nat }.

(** The [document] dictionary [ingest_documents] sends. *)
Definition cli_index_document (d : cli_document) (embedding : list Q) : doc :=
  <["content" := VStr (content d)]>
  (<["embedding" := VVec embedding]>
  (<["metadata" := VDict (cli_metadata d)]> ∅)).

(** The loop of [DataIngestionCLI.ingest_documents]. *)
Fixpoint ingest_documents_loop (es : ElasticsearchClient) (rag : RAGService)
    (documents : list cli_document) (succeeded failed_count : nat)
  : M (nat * nat) :=
  match documents with
  | [] => mret (succeeded, failed_count)
  | d :: documents' =>
      r ← try_except
            (embedding ← generate_embedding rag (content d);
             _ ← index_document es None
                   (Some (cli_index_document d embedding))
                   (Some (elasticsearch_index_name settings));
             mret (S succeeded, failed_count))
            (fun _ => mret (succeeded, S failed_count));
      ingest_documents_loop es rag documents' r.1 r.2
  end.

(** [DataIngestionCLI.ingest_documents] *)
Definition ingest_documents (es : ElasticsearchClient) (rag : RAGService)
    (documents : list cli_document) : M cli_stats :=
  r ← ingest_documents_loop es rag documents 0 0;
  mret {| st_total := length documents; st_success := r.1;
          st_failed := r.2 |}.

(** ** app/services/local_llm_service.py *)

(** [LocalEmbeddingService.get_embedding_dimension] *)
Definition get_embedding_dimension (self : LocalEmbeddingService) : Z :=
  let model_dims : list (string * Z) :=
    [ ("all-MiniLM-L6-v2", 384);
      ("all-MiniLM-L12-v2", 384);
      ("all-mpnet-base-v2", 768);
      ("sentence-transformers/all-MiniLM-L6-v2", 384);
      ("BAAI/bge-small-en-v1.5", 384);
      ("BAAI/bge-base-en-v1.5", 768) ] in
  default 384 (snd <$> find (fun p => bool_decide (p.1 = model_name self))
                         model_dims).

(** ** Vocabulary of the further properties *)

(** The body shared by the three searches: one search request, then the
    conversion of its hits. *)
Definition search_then {B} (f : hit -> exn + B) (name : string)
    (body : search_body) (size : Z) : M (list B) :=
  hits ← transport (ReqSearch name body size) (serve_search name body size);
  lift (collect f hits).


(** A word, as [str.split] produces them: not empty, no white space. *)
Fixpoint no_space (s : string) : bool :=
  match s with
  | EmptyString => true
  | String c s' => negb (is_space c) && no_space s'
  end.

Definition word (s : string) : Prop :=
  s <> EmptyString /\ no_space s = true.


End Engine.

(** * A concrete deployment

    Settings, collaborators and small server states on which the operations
    above are run. *)

Module Demo.

Definition demo_settings : Settings :=
  {| use_local_models := true;
     openai_api_key := None;
     openai_embedding_model := "text-embedding-3-small";
     embedding_dimension := 2;
     elasticsearch_index_name := "kb";
     elasticsearch_index := None;
     max_context_chunks := 5;
     min_similarity_score := 7 # 10 |}.

(** The server scores a stored vector by the absolute value of its dot
    product with the query. *)
Fixpoint dot (q v : list Q) : Q :=
  match q, v with
  | a :: q', b :: v' => (a * b + dot q' v')%Q
  | _, _ => 0%Q
  end.

Definition demo_knn_similarity (q v : list Q) : Q := Qabs (dot q v).

Definition demo_match_score (q : string) (fields : list string) (d : doc)
  : option Q :=
  match d !! "text" with
  | Some (VStr t) => if decide (t = q) then Some 1%Q else None
  | _ => None
  end.

Definition demo_auto_id (docs : gmap string doc) : string :=
  "auto_" +:+ pretty (size docs).

Definition demo_timestamp_str (t : nat) : string := pretty t +:+ ".0".
Definition demo_isoformat (t : nat) : string := "2024-01-01T00:00:" +:+ pretty t.
Definition demo_uuid_str (t : nat) : string := "uuid-" +:+ pretty t.
Definition demo_repr (v : value) : string := "None".

(** A local model with 2-dimensional embeddings, and one with 384. *)
Definition demo_local_encode (model text : string) : list Q :=
  if decide (model = "all-MiniLM-L6-v2")
  then replicate 384 (1 # 2)%Q
  else [Z.of_nat (String.length text) # 10; 1 # 10]%Q.

Definition demo_openai_embed (model text : string) : list Q :=
  [1 # 1; 0 # 1]%Q.

Definition demo_model_loads (name : string) : bool := true.

Definition env : Environment :=
  {| settings := demo_settings;
     knn_similarity := demo_knn_similarity;
     match_score := demo_match_score;
     auto_id := demo_auto_id;
     timestamp_str := demo_timestamp_str;
     isoformat := demo_isoformat;
     uuid_str := demo_uuid_str;
     repr := demo_repr;
     local_encode := demo_local_encode;
     openai_embed := demo_openai_embed;
     env_LOCAL_EMBEDDING_MODEL := None;
     model_loads := demo_model_loads |}.

(** The same deployment on a machine where no local model can be loaded. *)
Definition env_without_model : Environment :=
  {| settings := demo_settings;
     knn_similarity := demo_knn_similarity;
     match_score := demo_match_score;
     auto_id := demo_auto_id;
     timestamp_str := demo_timestamp_str;
     isoformat := demo_isoformat;
     uuid_str := demo_uuid_str;
     repr := demo_repr;
     local_encode := demo_local_encode;
     openai_embed := demo_openai_embed;
     env_LOCAL_EMBEDDING_MODEL := None;
     model_loads := fun _ => false |}.

Definition client : ElasticsearchClient :=
  ElasticsearchClient_init (env := env).

Definition passage (id text : string) (embedding : list Q) : doc :=
  <["id" := VStr id]>
  (<["text" := VStr text]>
  (<["embedding" := VVec embedding]>
  (<["metadata" := VDict (<["source" := VStr "faq.md"]> ∅)]> ∅))).

(** The knowledge-base index as [create_index] creates it here. *)
Definition kb_index (docs : gmap string doc) : index_state :=
  {| ix_body := kb_mapping (embedding_dimension demo_settings);
     ix_docs := docs |}.

Definition world_of (ixs : gmap string index_state) : world :=
  {| indices := ixs; es_faults := []; es_log := [];
     emb_faults := []; emb_log := []; clock := 0 |}.

(** A knowledge base with three passages. *)
Definition kb_world : world :=
  world_of
    (<["kb" := kb_index
         (<["p1" := passage "p1" "Open 9-5" [1; 0]%Q]>
         (<["p2" := passage "p2" "Closed on Sunday" [4 # 5; 1]%Q]>
         (<["p3" := passage "p3" "Returns within 30 days" [1 # 10; 1]%Q]>
          ∅)))]> ∅).

(** A knowledge base without passages. *)
Definition empty_kb_world : world := world_of (<["kb" := kb_index ∅]> ∅).

(** An engine on the small local model, and one on the default model. *)
Definition rag_small : RAGService :=
  {| es_client := client; max_chunks := 5; use_local := true;
     embedding_service := Some {| model_name := "tiny" |};
     openai_client := None; embedding_model := "local";
     use_keyword_search := false |}.

Definition rag_default : RAGService :=
  {| es_client := client; max_chunks := 5; use_local := true;
     embedding_service := Some {| model_name := "all-MiniLM-L6-v2" |};
     openai_client := None; embedding_model := "local";
     use_keyword_search := false |}.

Definition learning (rag : RAGService) : LearningService :=
  LearningService_init (env := env) client rag.

(** A conversation index holding one record.  The index was created by
    the first write of [store_conversation], with a dynamic mapping. *)
Definition conversation : doc :=
  conversation_document "c1" "What are your hours?" [1; 0]%Q
    "9-5 Mon-Fri" [0; 1]%Q (Some "u1") None "2024-01-01T00:00:00" None
    "telegram" None None.

Definition conv_world : world :=
  world_of
    (<["kb_conversations" :=
         {| ix_body := dynamic_body;
            ix_docs := <["c1" := conversation]> ∅ |}]>
    (<["kb" := kb_index ∅]> ∅)).

(** Ten documents for one bulk request; [d3] and [d7] carry an embedding
    of the wrong dimension. *)
Definition ten_documents : list doc :=
  [ passage "d0" "zero" [1; 0]%Q;
    passage "d1" "one" [1; 1]%Q;
    passage "d2" "two" [1; 2]%Q;
    passage "d3" "three" [1]%Q;
    passage "d4" "four" [1; 4]%Q;
    passage "d5" "five" [1; 5]%Q;
    passage "d6" "six" [1; 6]%Q;
    passage "d7" "seven" [1; 7; 7]%Q;
    passage "d8" "eight" [1; 8]%Q;
    passage "d9" "nine" [1; 9]%Q ].


(** A document as the ingestion command reads it, and a knowledge base that
    holds what the command wrote for it. *)
Definition cli_doc : cli_document :=
  {| content := "Open 9-5";
     cli_metadata := <["source" := VStr "faq.txt"]> ∅ |}.

Definition cli_world : world :=
  world_of
    (<["kb" := kb_index (<["u1" := cli_index_document cli_doc [1; 0]%Q]> ∅)]>
       ∅).

(** The engine as it is built where no local model can be loaded. *)
Definition rag_keyword : RAGService :=
  {| es_client := client; max_chunks := 5; use_local := true;
     embedding_service := None;
     openai_client := None; embedding_model := "none";
     use_keyword_search := true |}.

(** The ingester of scripts/ingest_docs.py with the default chunk sizes, a
    file it can read and one it cannot. *)
Definition ingester : DocumentIngester :=
  DocumentIngester_init client rag_default 600 100.

Definition faq_file : source_file :=
  {| f_name := "faq.md"; f_stem := "faq";
     f_content := Some "Open 9-5 Mon-Fri" |}.

Definition unreadable_file : source_file :=
  {| f_name := "logo.md"; f_stem := "logo"; f_content := None |}.


(** A chunker of three words with one word of overlap, and one whose overlap
    is the chunk size. *)
Definition small_chunker : DocumentChunker :=
  {| chunk_size := 3; overlap := 1 |}.

Definition stuck_chunker : DocumentChunker :=
  {| chunk_size := 2; overlap := 2 |}.

Definition opening_hours : string :=
  "Open 9-5  Mon-Fri, closed on Sunday".


(** A server whose full-text search also looks at the [answer] of a
    document: score 2 for an equal text, 1 for an equal answer. *)
Definition demo_fulltext_score (q : string) (fields : list string) (d : doc)
  : option Q :=
  match d !! "text" with
  | Some (VStr t) => if decide (t = q) then Some 2%Q else None
  | _ =>
      match d !! "answer" with
      | Some (VStr t) => if decide (t = q) then Some 1%Q else None
      | _ => None
      end
  end.

Definition env_fulltext : Environment :=
  {| settings := demo_settings;
     knn_similarity := demo_knn_similarity;
     match_score := demo_fulltext_score;
     auto_id := demo_auto_id;
     timestamp_str := demo_timestamp_str;
     isoformat := demo_isoformat;
     uuid_str := demo_uuid_str;
     repr := demo_repr;
     local_encode := demo_local_encode;
     openai_embed := demo_openai_embed;
     env_LOCAL_EMBEDDING_MODEL := None;
     model_loads := demo_model_loads |}.

(** A knowledge base holding two passages and a stored answer, which has
    neither [text] nor [metadata]. *)
Definition faq_docs : gmap string doc :=
  <["p1" := passage "p1" "Open 9-5" [1; 0]%Q]>
  (<["c1" := <["question" := VStr "When are you open?"]>
             (<["answer" := VStr "Open 9-5"]> ∅)]>
  (<["p3" := passage "p3" "Returns within 30 days" [1 # 10; 1]%Q]> ∅)).

Definition faq_world : world := world_of (<["kb" := kb_index faq_docs]> ∅).


End Demo.

(** * Properties *)

Section Properties.

Context {env : Environment}.

(** ** Round trips *)

Lemma transport_ok {A} req
    (serve : gmap string index_state -> exn + (A * gmap string index_state))
    w :
  head (es_faults w) <> Some true ->
  transport req serve w =
    match serve (indices w) with
    | inl e => (inl e, es_sent req w)
    | inr (a, ixs) => (inr a, with_indices ixs (es_sent req w))
    end.
Proof. unfold transport. by destruct (es_faults w) as [|[] ?]. Qed.

Lemma transport_fault {A} req
    (serve : gmap string index_state -> exn + (A * gmap string index_state))
    w :
  head (es_faults w) = Some true ->
  transport req serve w = (inl ConnectionError, es_sent req w).
Proof. unfold transport. by destruct (es_faults w) as [|[] ?]. Qed.


(** ** Ranking *)

Lemma insert_hit_Forall (P : hit -> Prop) h l :
  P h -> Forall P l -> Forall P (insert_hit h l).
Proof.
  intros Hh Hl. induction Hl as [|x l Hx Hl IH]; simpl.
  - by constructor.
  - destruct (Qle_bool (h_score x) (h_score h)); repeat constructor; auto.
Qed.

Lemma insert_hit_descending h l :
  descending_hits l -> descending_hits (insert_hit h l).
Proof.
  unfold descending_hits. induction 1 as [|x l Hl IH Hx]; simpl.
  - repeat constructor.
  - destruct (Qle_bool (h_score x) (h_score h)) eqn:E.
    + apply Qle_bool_iff in E. constructor.
      * by constructor.
      * constructor; [done|].
        eapply Forall_impl; [exact Hx|]. intros y Hy. simpl in Hy.
        by apply Qle_trans with (h_score x).
    + constructor; [done|].
      apply insert_hit_Forall; [|done].
      destruct (Qlt_le_dec (h_score h) (h_score x)) as [Hlt|Hle].
      * by apply Qlt_le_weak.
      * apply Qle_bool_iff in Hle. congruence.
Qed.

Lemma rank_descending l : descending_hits (rank l).
Proof.
  unfold rank. induction l as [|h l IH]; simpl.
  - constructor.
  - by apply insert_hit_descending.
Qed.

Lemma StronglySorted_take {A} (R : A -> A -> Prop) n l :
  StronglySorted R l -> StronglySorted R (take n l).
Proof.
  intros H. revert n. induction H as [|x l Hl IH Hx]; intros [|n]; simpl;
    try constructor; auto.
  apply Forall_take. done.
Qed.

Lemma StronglySorted_filter {A} (R : A -> A -> Prop) (P : A -> Prop)
    `{!forall x, Decision (P x)} l :
  StronglySorted R l -> StronglySorted R (filter P l).
Proof.
  induction 1 as [|x l Hl IH Hx]; [constructor|].
  rewrite filter_cons. destruct (decide (P x)); [|done].
  constructor; [done|]. apply Forall_forall.
  intros y [_ Hy]%list_elem_of_filter. revert y Hy. by apply Forall_forall.
Qed.

Lemma search_hits_descending ix body size hs :
  search_hits ix body size = inr hs -> descending_hits hs.
Proof.
  unfold search_hits. intros H.
  destruct (size <? 0); [done|].
  destruct body as [field qv k nc ms|q fields fz].
  - destruct (field_lookup _ _) as [[| | | |n|]|]; try done.
    destruct (negb _); [done|].
    destruct (_ || _); [done|].
    injection H as <-.
    apply StronglySorted_take, StronglySorted_filter.
    do 2 apply StronglySorted_take. apply rank_descending.
  - injection H as <-. apply StronglySorted_take, rank_descending.
Qed.

Lemma search_hits_length ix body size hs :
  0 <= size -> search_hits ix body size = inr hs ->
  Z.of_nat (length hs) <= size.
Proof.
  unfold search_hits. intros Hsz H.
  destruct (size <? 0); [done|].
  assert (Hlen : forall l : list hit,
             Z.of_nat (length (take (Z.to_nat size) l)) <= size).
  { intros l. rewrite length_take. lia. }
  destruct body as [field qv k nc ms|q fields fz].
  - destruct (field_lookup _ _) as [[| | | |n|]|]; try done.
    destruct (negb _); [done|].
    destruct (_ || _); [done|].
    injection H as <-. apply Hlen.
  - injection H as <-. apply Hlen.
Qed.

Lemma search_hits_knn_min_score ix field qv k nc ms size hs :
  search_hits ix (Knn field qv k nc ms) size = inr hs ->
  Forall (fun h => (ms <= h_score h)%Q) hs.
Proof.
  unfold search_hits. intros H.
  destruct (size <? 0); [done|].
  destruct (field_lookup _ _) as [[| | | |n|]|]; try done.
  destruct (negb _); [done|].
  destruct (_ || _); [done|].
  injection H as <-. apply Forall_take.
  apply Forall_forall. intros h Hh.
  apply list_elem_of_filter in Hh as [Hh _].
  by apply Qle_bool_iff.
Qed.

Lemma collect_Forall2 {A B} (f : A -> exn + B) l ys :
  collect f l = inr ys -> Forall2 (fun x y => f x = inr y) l ys.
Proof.
  revert ys. induction l as [|x l IH]; simpl; intros ys H.
  - injection H as <-. constructor.
  - destruct (f x) as [e|y] eqn:Hx; [done|].
    destruct (collect f l) as [e|ys'] eqn:Hl; [done|].
    injection H as <-. constructor; auto.
Qed.

Lemma StronglySorted_Forall2 {A B} (R : A -> A -> Prop)
    (R' : B -> B -> Prop) (T : A -> B -> Prop) l l' :
  (forall a a' b b', T a b -> T a' b' -> R a a' -> R' b b') ->
  Forall2 T l l' -> StronglySorted R l -> StronglySorted R' l'.
Proof.
  intros HT H2. induction H2 as [|a b l l' Hab H2 IH]; intros Hs.
  - constructor.
  - apply StronglySorted_inv in Hs as [Hs Ha].
    constructor; [by apply IH|].
    clear IH Hs. induction H2 as [|a' b' l l' Hab' H2 IH]; [constructor|].
    apply Forall_cons in Ha as [Ha Hl].
    constructor; [by eapply HT|by apply IH].
Qed.

Lemma vector_result_score h r :
  vector_result h = inr r -> r_score r = h_score h.
Proof.
  unfold vector_result. destruct (h_source h !! "text"); [|done].
  by intros [= <-].
Qed.

Lemma py_or_float_supplied m floor :
  (m == 0)%Q \/ py_or_float (Some m) floor = m.
Proof.
  unfold py_or_float. destruct (Qeq_bool m 0) eqn:E; [left|by right].
  by apply Qeq_bool_iff.
Qed.

Lemma rank_Forall (P : hit -> Prop) l : Forall P l -> Forall P (rank l).
Proof.
  unfold rank. induction 1; simpl; [constructor|].
  by apply insert_hit_Forall.
Qed.

Lemma search_hits_knn_nonneg ix field qv k nc ms size hs :
  (forall q v, (0 <= knn_similarity q v)%Q) ->
  search_hits ix (Knn field qv k nc ms) size = inr hs ->
  Forall (fun h => (0 <= h_score h)%Q) hs.
Proof.
  unfold search_hits. intros Hnn H.
  destruct (size <? 0); [done|].
  destruct (field_lookup _ _) as [[| | | |n|]|]; try done.
  destruct (negb _); [done|].
  destruct (_ || _); [done|].
  injection H as <-. apply Forall_take.
  apply Forall_forall. intros h [_ Hh]%list_elem_of_filter.
  revert h Hh. apply Forall_forall. do 2 apply Forall_take.
  apply rank_Forall, Forall_forall. intros h Hh.
  apply list_elem_of_omap in Hh as (p & _ & Hp).
  unfold knn_candidate in Hp.
  destruct (p.2 !! field) as [[]|]; try done.
  injection Hp as <-. apply Hnn.
Qed.

Lemma insert_hit_elem x h l : x ∈ insert_hit h l -> x = h \/ x ∈ l.
Proof.
  induction l as [|y l IH]; simpl.
  - intros ->%list_elem_of_singleton. by left.
  - destruct (Qle_bool (h_score y) (h_score h)).
    + intros [->|Hx]%elem_of_cons; auto.
    + intros [->|Hx]%elem_of_cons; [right; left|].
      destruct (IH Hx) as [->|Hl]; [by left|right; by right].
Qed.

Lemma rank_elem x l : x ∈ rank l -> x ∈ l.
Proof.
  unfold rank. induction l as [|h l IH]; simpl; [done|].
  intros [->|Hx]%insert_hit_elem; [left|right; auto].
Qed.

Lemma collect_total {A B} (f : A -> exn + B) l :
  Forall (fun x => exists y, f x = inr y) l -> exists ys, collect f l = inr ys.
Proof.
  induction 1 as [|x l [y Hy] _ [ys Hys]]; simpl; [by eexists|].
  rewrite Hy, Hys. by eexists.
Qed.

(** [vector_search] does return: on a reachable server, for an index whose
    [embedding] field has the dimension of the query vector and whose
    documents all have a [text], and for [top_k] between 1 and 1000. *)
Lemma vector_search_returns self query_vector top_k min_score w ix :
  head (es_faults w) <> Some true ->
  indices w !! index_name self = Some ix ->
  field_lookup (properties (ix_body ix)) "embedding"
    = Some (FDenseVector (Z.of_nat (length query_vector))) ->
  (forall id d, ix_docs ix !! id = Some d -> is_Some (d !! "text")) ->
  1 <= top_k <= 1000 ->
  exists results,
    (vector_search self query_vector top_k min_score w).1 = inr results.
Proof.
  intros Hf Hix Hfield Htext Hk.
  unfold vector_search, try_except, mbind, M_bind, bind, lift, vector_query.
  rewrite transport_ok by done.
  unfold serve_search, search_hits. rewrite Hix, Hfield.
  replace (top_k <? 0) with false by lia.
  rewrite Z.eqb_refl. simpl negb.
  replace ((top_k <? 1) || (top_k * 10 <? top_k) || (10000 <? top_k * 10))
    with false by lia.
  cbv iota.
  match goal with
  | |- context [collect vector_result ?hs] =>
      destruct (collect_total vector_result hs) as [rs Hrs]
  end.
  - apply Forall_forall. intros h Hh.
    apply subseteq_take in Hh. apply list_elem_of_filter in Hh as [_ Hh].
    do 2 apply subseteq_take in Hh. apply rank_elem in Hh.
    apply list_elem_of_omap in Hh as ([id d] & Hp & Hc).
    apply elem_of_map_to_list in Hp. unfold knn_candidate in Hc.
    simpl in Hc. destruct (d !! "embedding") as [[]|]; try done.
    injection Hc as <-. unfold vector_result. simpl.
    destruct (Htext _ _ Hp) as [t ->]. by eexists.
  - exists rs. simpl. by rewrite Hrs.
Qed.

(** C2.  For a positive [top_k], [vector_search] sends one kNN request
    asking for at least [10 * top_k] candidates; what it returns has at
    most [top_k] hits, in non-increasing order of score, none of them below
    a [min_score] given by the caller.  (The server's [_score] of a vector
    is non-negative.)  A failure surfaces as [ElasticsearchError]. *)
Theorem vector_search_ranked self query_vector top_k min_score w :
  0 < top_k ->
  (forall q v, (0 <= knn_similarity q v)%Q) ->
  let r := vector_search self query_vector top_k min_score w in
  (exists nc ms,
      es_log r.2 =
        es_log w ++ [ReqSearch (index_name self)
                       (Knn "embedding" query_vector top_k nc ms) top_k]
      /\ 10 * top_k <= nc) /\
  match r.1 with
  | inr results =>
      Z.of_nat (length results) <= top_k /\
      descending results /\
      forall m, min_score = Some m ->
                Forall (fun x => (m <= r_score x)%Q) results
  | inl e => e = ElasticsearchError
  end.
Proof.
  intros Hk Hnn r. subst r.
  unfold vector_search, try_except, mbind, M_bind, bind, transport, lift,
    vector_query.
  set (ms := py_or_float min_score (min_similarity_score settings)).
  split.
  { exists (top_k * 10), ms. split; [|lia].
    destruct (es_faults w) as [|[] ?]; simpl; try done;
      destruct (serve_search _ _ _ _) as [e|[hs ixs]]; simpl; try done;
      by destruct (collect vector_result hs). }
  assert (Hserve : forall hs ixs,
    serve_search (index_name self) (Knn "embedding" query_vector top_k
                                      (top_k * 10) ms) top_k (indices w)
      = inr (hs, ixs) ->
    match collect vector_result hs with
    | inr results =>
        Z.of_nat (length results) <= top_k /\
        descending results /\
        forall m, min_score = Some m ->
                  Forall (fun x => (m <= r_score x)%Q) results
    | inl _ => True
    end).
  { intros hs ixs Hs. unfold serve_search in Hs.
    destruct (indices w !! index_name self) as [ix|]; [|done].
    destruct (search_hits ix _ top_k) as [e|hs'] eqn:Hh; [done|].
    injection Hs as <- <-.
    destruct (collect vector_result hs') as [e|results] eqn:Hc; [done|].
    apply collect_Forall2 in Hc.
    split; [|split].
    - rewrite <- (Forall2_length _ _ _ Hc).
      eapply search_hits_length; [lia|done].
    - eapply StronglySorted_Forall2;
        [|exact Hc|by eapply search_hits_descending].
      intros a a' b b' Ha Ha' Hle.
      by rewrite (vector_result_score _ _ Ha), (vector_result_score _ _ Ha').
    - intros m ->.
      pose proof (search_hits_knn_min_score _ _ _ _ _ _ _ _ Hh) as Hms.
      pose proof (search_hits_knn_nonneg _ _ _ _ _ _ _ _ Hnn Hh) as Hpos.
      clear Hh. induction Hc as [|h x hs results Hx Hc IH]; [constructor|].
      apply Forall_cons in Hms as [Hm Hms].
      apply Forall_cons in Hpos as [Hp Hpos].
      constructor; [|by apply IH].
      rewrite (vector_result_score _ _ Hx).
      destruct (py_or_float_supplied m (min_similarity_score settings))
        as [H0|Heq].
      + by rewrite H0.
      + subst ms. by rewrite Heq in Hm. }
  destruct (es_faults w) as [|[] ?]; simpl; try done;
    destruct (serve_search _ _ _ _) as [e|[hs ixs]] eqn:Hs; simpl; try done;
    specialize (Hserve _ _ eq_refl);
    by destruct (collect vector_result hs).
Qed.

(** ** Retrieval *)

(** C3.  When the search behind [retrieve_context] (keyword search, or
    embedding the query and vector search) returns no hit,
    [retrieve_context] returns normally, with an empty document list and
    the no-context message as formatted context. *)
Theorem retrieve_context_no_hits self query top_k min_score w w' :
  (if use_keyword_search self
   then keyword_search (es_client self) query
          (py_or_int top_k (max_chunks self)) w = (inr [], w')
   else exists query_embedding w1,
       generate_embedding self query w = (inr query_embedding, w1) /\
       vector_search (es_client self) query_embedding
         (py_or_int top_k (max_chunks self)) min_score w1 = (inr [], w')) ->
  retrieve_context self query top_k min_score w =
    (inr {| documents := [];
            formatted_context := "No relevant context available." |}, w').
Proof.
  unfold retrieve_context, try_except, mbind, M_bind, bind.
  destruct (use_keyword_search self).
  - by intros ->.
  - by intros (emb & w1 & -> & ->).
Qed.


(** ** Index creation *)

Lemma create_index_run self index_name_arg w :
  head (es_faults w) <> Some true ->
  let name := py_or_str index_name_arg (index_name self) in
  let mapping := kb_mapping (embedding_dimension settings) in
  create_index self index_name_arg w =
    match indices w !! name with
    | Some _ => (inr true, es_sent (ReqExists name) w)
    | None =>
        let w1 := es_sent (ReqExists name) w in
        match es_faults w1 with
        | true :: _ =>
            (inl ElasticsearchError, es_sent (ReqCreate name mapping) w1)
        | _ =>
            (inr true,
             with_indices
               (<[name := {| ix_body := mapping; ix_docs := ∅ |}]> (indices w))
               (es_sent (ReqCreate name mapping) w1))
        end
    end.
Proof.
  intros Hf name mapping.
  unfold create_index, try_except, mbind, M_bind, bind, transport,
    serve_exists, serve_create. fold name. fold mapping.
  unfold with_indices, es_sent.
  destruct (es_faults w) as [|[] fs] eqn:Hfs; simpl in *; try done;
    destruct (indices w !! name) as [ix|] eqn:Hix; simpl; try done.
  - by rewrite Hix.
  - destruct fs as [|[] fs']; simpl; by rewrite ?Hix.
Qed.

Lemma reachable_head fs : reachable fs -> head fs <> Some true.
Proof. destruct 1; simpl; congruence. Qed.

Lemma reachable_tail fs : reachable fs -> reachable (tail fs).
Proof. destruct 1; simpl; [constructor|done]. Qed.

(** C4.  While the server is reachable, [create_index] returns [True]
    whether or not the index existed; on an existing index it changes
    nothing on the server (whatever dimension the settings now give), and a
    second call returns [True] again and leaves the server as the first
    call left it. *)
Theorem create_index_idempotent self index_name_arg w :
  reachable (es_faults w) ->
  let name := py_or_str index_name_arg (index_name self) in
  let r1 := create_index self index_name_arg w in
  let r2 := create_index self index_name_arg r1.2 in
  r1.1 = inr true /\
  r2.1 = inr true /\
  indices r2.2 = indices r1.2 /\
  (is_Some (indices w !! name) -> indices r1.2 = indices w).
Proof.
  intros Hf name r1 r2. subst r1 r2.
  pose proof (reachable_head _ Hf) as Hh.
  pose proof (reachable_tail _ Hf) as Ht.
  pose proof (reachable_tail _ Ht) as Htt.
  rewrite (create_index_run self index_name_arg w Hh). fold name.
  destruct (indices w !! name) as [ix|] eqn:Hix.
  - simpl. rewrite create_index_run; simpl; [|by apply reachable_head].
    fold name. rewrite Hix. simpl. eauto.
  - simpl. pose proof (reachable_head _ Ht) as Hh'.
    destruct (tail (es_faults w)) as [|[] fs] eqn:Hfs; try done; simpl.
    + rewrite create_index_run; simpl; [|by rewrite Hfs].
      fold name. rewrite lookup_insert_eq. simpl.
      repeat split; try done; by intros [? ?].
    + rewrite create_index_run; simpl;
        [|rewrite Hfs; by apply reachable_head].
      fold name. rewrite lookup_insert_eq. simpl.
      repeat split; try done; by intros [? ?].
Qed.

(** ** Bulk indexing *)

Lemma serve_bulk_length acts ixs :
  length (serve_bulk acts ixs).1 = length acts.
Proof.
  revert ixs. induction acts as [|a acts IH]; intros ixs; simpl; [done|].
  by rewrite IH.
Qed.

Lemma failed_items_nil oks (acts : list bulk_action) :
  length oks = length acts -> failed_items oks acts = [] ->
  length (filter (fun b => b = true) oks) = length acts.
Proof.
  unfold failed_items. revert acts.
  induction oks as [|b oks IH]; intros [|a acts] Hlen H; simpl in *;
    try done.
  rewrite filter_cons in H. rewrite filter_cons.
  destruct b; simpl in *.
  - f_equal. apply IH; [lia|done].
  - done.
Qed.

Lemma concat_chunks_fuel {A} fuel n (l : list A) :
  (length l <= fuel)%nat -> concat (chunks_fuel fuel n l) = l.
Proof.
  revert l. induction fuel as [|fuel IH]; intros l Hl.
  - destruct l; simpl in *; [done|lia].
  - destruct l as [|x l]; [done|].
    cbn [chunks_fuel concat]. rewrite IH.
    + apply take_drop.
    + rewrite length_drop. simpl in *. lia.
Qed.

Lemma concat_chunks {A} n (l : list A) : concat (chunks n l) = l.
Proof. by apply concat_chunks_fuel. Qed.

(** With [raise_on_error], the helper returns only when no item failed. *)
Lemma streaming_bulk_returns cs w n errs w' :
  streaming_bulk true cs w = (inr (n, errs), w') ->
  errs = [] /\ n = length (concat cs).
Proof.
  revert w n errs w'. induction cs as [|c cs IH]; intros w n errs w' H.
  - by injection H as <- <- _.
  - cbn [streaming_bulk] in H.
    unfold mbind, M_bind, bind, transport in H.
    pose proof (serve_bulk_length c (indices w)) as Hlen.
    destruct (serve_bulk c (indices w)) as [oks ixs]. simpl in Hlen.
    destruct (es_faults w) as [|[] ?]; try done; simpl in H.
    + destruct (bool_decide (failed_items oks c = [])) eqn:Hb;
        simpl in H; [|done].
      apply bool_decide_eq_true in Hb.
      destruct (streaming_bulk true cs _) as [[e|[n' errs']] w''] eqn:Hr;
        [done|].
      injection H as <- <- <-. apply IH in Hr as [-> ->].
      rewrite Hb. split; [done|].
      cbn [concat]. rewrite length_app.
      by rewrite (failed_items_nil _ _ Hlen Hb).
    + destruct (bool_decide (failed_items oks c = [])) eqn:Hb;
        simpl in H; [|done].
      apply bool_decide_eq_true in Hb.
      destruct (streaming_bulk true cs _) as [[e|[n' errs']] w''] eqn:Hr;
        [done|].
      injection H as <- <- <-. apply IH in Hr as [-> ->].
      rewrite Hb. split; [done|].
      cbn [concat]. rewrite length_app.
      by rewrite (failed_items_nil _ _ Hlen Hb).
Qed.

(** What [bulk_index] can report: either every document of the batch was
    indexed, or [ElasticsearchError] is raised.  It never returns a
    non-zero failure count. *)
Lemma bulk_index_all_or_error self documents w :
  match (bulk_index self documents w).1 with
  | inr r => success r = length documents /\ failed r = FailedItems []
  | inl e => e = ElasticsearchError
  end.
Proof.
  unfold bulk_index, try_except, async_bulk, mbind, M_bind, bind.
  destruct (streaming_bulk true _ w) as [[e|[n errs]] w'] eqn:Hr; [done|].
  apply streaming_bulk_returns in Hr as [-> ->]. simpl.
  by rewrite concat_chunks, length_map.
Qed.

(** ** Conversation learning *)

Lemma generate_embedding_returns self text w v w' :
  generate_embedding self text w = (inr v, w') ->
  exists req, w' = emb_sent req w /\ request_text req = text.
Proof.
  unfold generate_embedding, try_except, provider_call, raise.
  intros H.
  destruct (use_local self).
  - destruct (embedding_service self) as [svc|]; [|done].
    destruct (emb_faults w) as [|[] ?]; try done;
      injection H as <- <-; by eexists.
  - destruct (openai_client self) as [c|]; [|done].
    destruct (emb_faults w) as [|[] ?]; try done;
      injection H as <- <-; by eexists.
Qed.

Lemma generate_embedding_server self text w :
  indices (generate_embedding self text w).2 = indices w /\
  es_log (generate_embedding self text w).2 = es_log w /\
  es_faults (generate_embedding self text w).2 = es_faults w /\
  clock (generate_embedding self text w).2 = clock w.
Proof.
  unfold generate_embedding, try_except, provider_call, raise.
  destruct (use_local self).
  - destruct (embedding_service self) as [svc|]; [|done].
    by destruct (emb_faults w) as [|[] ?].
  - destruct (openai_client self) as [c|]; [|done].
    by destruct (emb_faults w) as [|[] ?].
Qed.

(** The body of [store_conversation], step by step. *)
Lemma store_conversation_run self question answer user_id chat_id
    context_used channel session_id processing_time_ms w :
  store_conversation self question answer user_id chat_id context_used
    channel session_id processing_time_ms w =
  match generate_embedding (rag_service self) question w with
  | (inl _, w1) => (inr false, w1)
  | (inr question_embedding, w1) =>
      match generate_embedding (rag_service self) answer w1 with
      | (inl _, w2) => (inr false, w2)
      | (inr answer_embedding, w2) =>
          let doc_id :=
            "conv_" +:+ timestamp_str (clock w2) +:+ "_"
                    +:+ py_or_str user_id "anon" in
          let document :=
            conversation_document doc_id question question_embedding answer
              answer_embedding user_id chat_id (isoformat (S (clock w2)))
              context_used channel session_id processing_time_ms in
          match transport (ReqIndex (learning_index self) doc_id document)
                  (serve_index (learning_index self) doc_id document)
                  (tick (tick w2)) with
          | (inl _, w3) => (inr false, w3)
          | (inr _, w3) => (inr true, w3)
          end
      end
  end.
Proof.
  unfold store_conversation, try_except, mbind, M_bind, bind, utcnow.
  destruct (generate_embedding _ question w) as [[e|qe] w1]; [done|].
  destruct (generate_embedding _ answer w1) as [[e|ae] w2]; [done|].
  simpl. by destruct (transport _ _ _) as [[e|[]] w3].
Qed.

(** What [store_conversation] returns, case by case. *)
Lemma store_conversation_outcomes self question answer user_id
    chat_id context_used channel session_id processing_time_ms w :
  let r := store_conversation self question answer user_id chat_id
             context_used channel session_id processing_time_ms w in
  exists b : bool,
    r.1 = inr b /\
    (b = true ->
     (exists r1 r2,
         emb_log r.2 = emb_log w ++ [r1; r2] /\
         request_text r1 = question /\ request_text r2 = answer) /\
     (exists ix doc_id d,
         es_log r.2 = es_log w ++ [ReqIndex (learning_index self) doc_id d] /\
         indices r.2 !! learning_index self = Some ix /\
         ix_docs ix !! doc_id = Some d /\
         d !! "question" = Some (VStr question) /\
         d !! "answer" = Some (VStr answer) /\
         d !! "feedback" = Some (VStr "neutral"))) /\
    (forall e w1,
        generate_embedding (rag_service self) question w = (inl e, w1) ->
        b = false) /\
    (forall qe w1 e w2,
        generate_embedding (rag_service self) question w = (inr qe, w1) ->
        generate_embedding (rag_service self) answer w1 = (inl e, w2) ->
        b = false) /\
    (forall qe w1 ae w2 id d e w3,
        generate_embedding (rag_service self) question w = (inr qe, w1) ->
        generate_embedding (rag_service self) answer w1 = (inr ae, w2) ->
        es_log r.2 = es_log w ++ [ReqIndex (learning_index self) id d] ->
        transport (ReqIndex (learning_index self) id d)
          (serve_index (learning_index self) id d) (tick (tick w2))
          = (inl e, w3) ->
        b = false).
Proof.
  intros r. subst r. rewrite store_conversation_run.
  destruct (generate_embedding _ question w) as [[e|qe] w1] eqn:Hq.
  { exists false. repeat split; intros; simplify_eq. }
  destruct (generate_embedding _ answer w1) as [[e|ae] w2] eqn:Ha.
  { exists false. repeat split; intros; simplify_eq. }
  pose proof (generate_embedding_server (rag_service self) question w) as Sq.
  pose proof (generate_embedding_server (rag_service self) answer w1) as Sa.
  rewrite Hq in Sq. rewrite Ha in Sa. simpl in Sq, Sa.
  destruct Sq as (Iq & Lq & Fq & Cq). destruct Sa as (Ia & La & Fa & Ca).
  destruct (generate_embedding_returns _ _ _ _ _ Hq) as (r1 & -> & <-).
  destruct (generate_embedding_returns _ _ _ _ _ Ha) as (r2 & -> & <-).
  cbv zeta.
  set (doc_id := "conv_" +:+ _).
  set (document := conversation_document _ _ _ _ _ _ _ _ _ _ _ _).
  assert (Hw : forall id d e w3 ae' w2',
    generate_embedding (rag_service self) (request_text r2) (emb_sent r1 w)
      = (inr ae', w2') ->
    transport (ReqIndex (learning_index self) id d)
      (serve_index (learning_index self) id d) (tick (tick w2'))
      = (inl e, w3) ->
    transport (ReqIndex (learning_index self) id d)
      (serve_index (learning_index self) id d)
      (tick (tick (emb_sent r2 (emb_sent r1 w)))) = (inl e, w3)).
  { intros id d e w3 ae' w2' H0 H1. rewrite Ha in H0. by simplify_eq. }
  destruct (transport _ _ _) as [[e|[]] w3] eqn:Ht.
  { exists false. repeat split; intros; simplify_eq; try congruence. }
  exists true. split; [done|].
  assert (Hlog : es_log w3 = es_log w ++ [ReqIndex (learning_index self)
                                            doc_id document]).
  { unfold transport in Ht. simpl in Ht.
    destruct (es_faults w) as [|[] fs]; simpl in Ht; try done;
      destruct (serve_index _ _ _ _) as [?|[[] ?]]; by simplify_eq. }
  split; [|repeat split; intros; simplify_eq; try congruence].
  - intros _. split.
    + exists r1, r2. unfold transport in Ht. simpl in Ht.
      destruct (es_faults w) as [|[] fs]; simpl in Ht; try done;
        destruct (serve_index _ _ _ _) as [?|[[] ?]]; simplify_eq; simpl;
        by rewrite <- app_assoc.
    + exists (Build_index_state
                (ix_body (default {| ix_body := dynamic_body; ix_docs := ∅ |}
                            (indices w !! learning_index self)))
                (<[doc_id := document]>
                   (ix_docs (default {| ix_body := dynamic_body;
                                        ix_docs := ∅ |}
                               (indices w !! learning_index self))))),
        doc_id, document.
      split; [done|].
      unfold transport, serve_index, put_doc in Ht. simpl in Ht.
      destruct (es_faults w) as [|[] fs]; simpl in Ht; try done;
        destruct (doc_accepted _ _); simplify_eq; simpl;
        rewrite !lookup_insert_eq; by repeat split.
  - simpl in H1. rewrite Hlog in H1. simplify_list_eq.
    specialize (Hw _ _ _ _ _ _ H0 H2). congruence.
Qed.

(** When both embeddings are answered, the server is reachable and the
    conversation index accepts the record, the write happens. *)
Lemma store_conversation_succeeds self question answer user_id chat_id
    context_used channel session_id processing_time_ms w qe w1 ae w2 :
  generate_embedding (rag_service self) question w = (inr qe, w1) ->
  generate_embedding (rag_service self) answer w1 = (inr ae, w2) ->
  head (es_faults w) <> Some true ->
  (forall doc_id ts,
      doc_accepted
        (ix_body (default {| ix_body := dynamic_body; ix_docs := ∅ |}
                    (indices w !! learning_index self)))
        (conversation_document doc_id question qe answer ae user_id chat_id
           ts context_used channel session_id processing_time_ms) = true) ->
  (store_conversation self question answer user_id chat_id context_used
     channel session_id processing_time_ms w).1 = inr true.
Proof.
  intros Hq Ha Hf Hacc. rewrite store_conversation_run, Hq, Ha. cbv zeta.
  pose proof (generate_embedding_server (rag_service self) question w) as Sq.
  pose proof (generate_embedding_server (rag_service self) answer w1) as Sa.
  rewrite Hq in Sq. rewrite Ha in Sa. simpl in Sq, Sa.
  destruct Sq as (Iq & _ & Fq & _). destruct Sa as (Ia & _ & Fa & _).
  rewrite transport_ok by (simpl; congruence).
  unfold serve_index. simpl indices. rewrite Ia, Iq, Hacc. done.
Qed.

(** C5.  [store_conversation] always returns a boolean, it never raises.
    When it returns [True] it has called the embedding provider exactly
    twice, for the question and then for the answer, and the record it has
    written to the conversation index has [feedback = "neutral"].  When
    embedding the question, embedding the answer or the write fails, it
    returns [False].  And it does return [True], hence embed twice and
    write, whenever both embeddings are answered, the server is reachable
    and the conversation index accepts the record. *)
Theorem store_conversation_never_raises self question answer user_id
    chat_id context_used channel session_id processing_time_ms w :
  let r := store_conversation self question answer user_id chat_id
             context_used channel session_id processing_time_ms w in
  exists b : bool,
    r.1 = inr b /\
    (b = true ->
     (exists r1 r2,
         emb_log r.2 = emb_log w ++ [r1; r2] /\
         request_text r1 = question /\ request_text r2 = answer) /\
     (exists ix doc_id d,
         es_log r.2 = es_log w ++ [ReqIndex (learning_index self) doc_id d] /\
         indices r.2 !! learning_index self = Some ix /\
         ix_docs ix !! doc_id = Some d /\
         d !! "question" = Some (VStr question) /\
         d !! "answer" = Some (VStr answer) /\
         d !! "feedback" = Some (VStr "neutral"))) /\
    (forall e w1,
        generate_embedding (rag_service self) question w = (inl e, w1) ->
        b = false) /\
    (forall qe w1 e w2,
        generate_embedding (rag_service self) question w = (inr qe, w1) ->
        generate_embedding (rag_service self) answer w1 = (inl e, w2) ->
        b = false) /\
    (forall qe w1 ae w2 id d e w3,
        generate_embedding (rag_service self) question w = (inr qe, w1) ->
        generate_embedding (rag_service self) answer w1 = (inr ae, w2) ->
        es_log r.2 = es_log w ++ [ReqIndex (learning_index self) id d] ->
        transport (ReqIndex (learning_index self) id d)
          (serve_index (learning_index self) id d) (tick (tick w2))
          = (inl e, w3) ->
        b = false) /\
    (forall qe w1 ae w2,
        generate_embedding (rag_service self) question w = (inr qe, w1) ->
        generate_embedding (rag_service self) answer w1 = (inr ae, w2) ->
        head (es_faults w) <> Some true ->
        (forall doc_id ts,
            doc_accepted
              (ix_body (default {| ix_body := dynamic_body; ix_docs := ∅ |}
                          (indices w !! learning_index self)))
              (conversation_document doc_id question qe answer ae user_id
                 chat_id ts context_used channel session_id
                 processing_time_ms) = true) ->
        b = true).
Proof.
  intros r.
  destruct (store_conversation_outcomes self question answer user_id chat_id
              context_used channel session_id processing_time_ms w)
    as (b & Hb & Htrue & Hq & Ha & Hw).
  exists b. split; [exact Hb|]. split; [exact Htrue|].
  split; [exact Hq|]. split; [exact Ha|]. split; [exact Hw|].
  intros qe w1 ae w2 Hqe Hae Hf Hacc.
  pose proof (store_conversation_succeeds self question answer user_id
                chat_id context_used channel session_id processing_time_ms
                w qe w1 ae w2 Hqe Hae Hf Hacc) as Hrun.
  subst r. rewrite Hrun in Hb. by injection Hb.
Qed.

Lemma update_feedback_run self conversation_id feedback w :
  update_feedback self conversation_id feedback w =
    let body := feedback_patch feedback (isoformat (clock w)) in
    match transport (ReqUpdate (learning_index self) conversation_id body)
            (serve_update (learning_index self) conversation_id body)
            (tick w) with
    | (inl _, w') => (inr false, w')
    | (inr _, w') => (inr true, w')
    end.
Proof.
  unfold update_feedback, try_except, mbind, M_bind, bind, utcnow.
  by destruct (transport _ _ _) as [[e|[]] w'].
Qed.

Lemma stored_doc_put w name id ix d n i :
  indices w !! name = Some ix ->
  (n, i) <> (name, id) ->
  (ix' ← put_doc name id ix d (indices w) !! n; ix_docs ix' !! i)
    = stored_doc w n i.
Proof.
  intros Hix Hne. unfold put_doc, stored_doc.
  destruct (decide (n = name)) as [->|Hn].
  - rewrite lookup_insert_eq, Hix. simpl.
    apply lookup_insert_ne. congruence.
  - by rewrite lookup_insert_ne.
Qed.

(** C7, as the code has it.  [update_feedback] always returns a boolean.
    For an id with no record in the conversation index it returns [False]
    and the server is unchanged, so no record is created.  When it returns
    [True] for an existing record, that record has the new [feedback] and a
    [feedback_updated_at] timestamp, and every other field as before.  No
    other record and no index schema is ever changed.  On a reachable
    server an existing record accepted by the schema is updated. *)
Theorem update_feedback_sets_feedback_and_timestamp self conversation_id
    feedback w :
  let r := update_feedback self conversation_id feedback w in
  let li := learning_index self in
  let patch := feedback_patch feedback (isoformat (clock w)) in
  exists b : bool,
    r.1 = inr b /\
    (stored_doc w li conversation_id = None ->
     b = false /\ indices r.2 = indices w) /\
    (forall d, stored_doc w li conversation_id = Some d ->
       if b then
         exists d', stored_doc r.2 li conversation_id = Some d' /\
           d' !! "feedback" = Some (VStr feedback) /\
           d' !! "feedback_updated_at"
             = Some (VStr (isoformat (clock w))) /\
           forall k, k <> "feedback" -> k <> "feedback_updated_at" ->
                     d' !! k = d !! k
       else indices r.2 = indices w) /\
    (forall n id, (n, id) <> (li, conversation_id) ->
                  stored_doc r.2 n id = stored_doc w n id) /\
    (forall n, index_schema r.2 n = index_schema w n) /\
    (forall ix d,
        indices w !! li = Some ix -> ix_docs ix !! conversation_id = Some d ->
        head (es_faults w) <> Some true ->
        doc_accepted (ix_body ix) (patch ∪ d) = true ->
        b = true).
Proof.
  intros r li patch. subst r. rewrite update_feedback_run. cbv zeta.
  fold li. fold patch.
  destruct (decide (head (es_faults w) = Some true)) as [Hf|Hf].
  { rewrite transport_fault by done. exists false. simpl.
    repeat split; done. }
  rewrite transport_ok by done. simpl. unfold serve_update.
  destruct (indices w !! li) as [ix|] eqn:Hix.
  2:{ exists false. simpl. repeat split; try done; intros; simplify_eq. }
  destruct (ix_docs ix !! conversation_id) as [d|] eqn:Hd.
  2:{ exists false. simpl. repeat split; try done; intros; simplify_eq. }
  destruct (doc_accepted (ix_body ix) (patch ∪ d)) eqn:Hacc.
  2:{ exists false. simpl. repeat split; try done; intros; congruence. }
  exists true. simpl. split; [done|]. split; [|split; [|split; [|split]]].
  - unfold stored_doc. rewrite Hix. simpl. by rewrite Hd.
  - intros d0 Hd0. unfold stored_doc in Hd0. rewrite Hix in Hd0.
    simpl in Hd0. rewrite Hd in Hd0. injection Hd0 as <-.
    exists (patch ∪ d). unfold stored_doc, put_doc. simpl.
    rewrite lookup_insert_eq. simpl. rewrite lookup_insert_eq.
    split; [done|]. unfold patch, feedback_patch.
    split; [|split].
    + apply lookup_union_Some_l. by rewrite lookup_insert_eq.
    + apply lookup_union_Some_l.
      rewrite lookup_insert_ne by done. by rewrite lookup_insert_eq.
    + intros k Hk1 Hk2. apply lookup_union_r.
      rewrite !lookup_insert_ne by done. apply lookup_empty.
  - intros n id Hne. unfold stored_doc at 1. simpl.
    by apply stored_doc_put.
  - intros n. unfold index_schema, put_doc. simpl.
    destruct (decide (n = li)) as [->|Hn].
    + by rewrite lookup_insert_eq, Hix.
    + by rewrite lookup_insert_ne.
  - done.
Qed.

Lemma promote_to_knowledge_base_run self conversation_id doc_type product w :
  promote_to_knowledge_base self conversation_id doc_type product w =
    match transport (ReqGet (learning_index self) conversation_id)
            (serve_get (learning_index self) conversation_id) w with
    | (inl _, w1) => (inr false, w1)
    | (inr conv, w1) =>
        match conv !! "question", conv !! "answer",
              conv !! "question_embedding" with
        | Some question, Some answer, Some embedding =>
            let kb := index_name (ls_es_client self) in
            let id := "learned_" +:+ conversation_id in
            let kb_doc :=
              kb_document conversation_id question answer embedding
                doc_type product (isoformat (clock w1))
                (isoformat (S (clock w1))) in
            match transport (ReqIndex kb id kb_doc)
                    (serve_index kb id kb_doc) (tick (tick w1)) with
            | (inl _, w2) => (inr false, w2)
            | (inr _, w2) => (inr true, w2)
            end
        | _, _, _ => (inr false, w1)
        end
    end.
Proof.
  unfold promote_to_knowledge_base, index_document, try_except, mbind,
    M_bind, bind, subscript, utcnow, mret, M_ret, ret, raise.
  destruct (transport _ _ w) as [[e|conv] w1]; [done|].
  destruct (conv !! "question") as [q|]; [|done].
  destruct (conv !! "answer") as [a|]; [|done].
  destruct (conv !! "question_embedding") as [e|]; [|done].
  destruct (decide ("learned_" +:+ conversation_id = EmptyString)) as [Hd|Hd];
    [done|].
  simpl. by destruct (transport _ _ _) as [[e'|[]] w2].
Qed.

Lemma learned_id_fresh s : "learned_" +:+ s <> s.
Proof.
  intros H. apply (f_equal String.length) in H.
  simpl in H. change (EmptyString +:+ s) with s in H. lia.
Qed.

(** C6.  For a conversation record stored under [conversation_id] with a
    question, an answer and a question embedding, on a reachable server
    whose knowledge-base index accepts the passage,
    [promote_to_knowledge_base] returns [True] and the knowledge-base index
    then holds, under the id ["learned_" + conversation_id], a passage
    whose text is built from the question and the answer, whose embedding
    is the record's question embedding (the embedding provider is not
    called), and whose metadata refer back to [conversation_id]; the
    conversation record is as before. *)
Theorem promote_creates_learned_passage self conversation_id doc_type
    product w conv question answer embedding :
  stored_doc w (learning_index self) conversation_id = Some conv ->
  conv !! "question" = Some question ->
  conv !! "answer" = Some answer ->
  conv !! "question_embedding" = Some embedding ->
  reachable (es_faults w) ->
  let kb := index_name (ls_es_client self) in
  let passage :=
    kb_document conversation_id question answer embedding doc_type product
      (isoformat (clock w)) (isoformat (S (clock w))) in
  doc_accepted
    (ix_body (default {| ix_body := dynamic_body; ix_docs := ∅ |}
                (indices w !! kb))) passage = true ->
  let r := promote_to_knowledge_base self conversation_id doc_type product w in
  r.1 = inr true /\
  stored_doc r.2 kb ("learned_" +:+ conversation_id) = Some passage /\
  passage !! "id" = Some (VStr ("learned_" +:+ conversation_id)) /\
  passage !! "text"
    = Some (VStr ("Q: " +:+ py_str question +:+ nl +:+ nl +:+ "A: "
                    +:+ py_str answer)) /\
  passage !! "embedding" = conv !! "question_embedding" /\
  (exists m, passage !! "metadata" = Some (VDict m) /\
             m !! "original_conversation_id" = Some (VStr conversation_id)) /\
  emb_log r.2 = emb_log w /\
  stored_doc r.2 (learning_index self) conversation_id = Some conv.
Proof.
  intros Hconv Hq Ha He Hf kb passage Hacc r. subst r.
  rewrite promote_to_knowledge_base_run.
  pose proof (reachable_head _ Hf) as Hh.
  pose proof (reachable_head _ (reachable_tail _ Hf)) as Hh'.
  rewrite transport_ok by done. unfold serve_get.
  unfold stored_doc in Hconv.
  destruct (indices w !! learning_index self) as [ix|] eqn:Hix; [|done].
  simpl in Hconv. rewrite Hconv. rewrite Hq, Ha, He. cbv zeta.
  rewrite transport_ok by done. simpl. fold kb. fold passage.
  unfold serve_index. rewrite Hacc. simpl.
  split; [done|]. split; [|split; [|split; [|split; [|split; [|split]]]]].
  - unfold stored_doc, put_doc. simpl. rewrite lookup_insert_eq. simpl.
    by rewrite lookup_insert_eq.
  - done.
  - done.
  - done.
  - eexists. split; [done|]. by simplify_map_eq.
  - done.
  - unfold stored_doc. simpl.
    transitivity (stored_doc w (learning_index self) conversation_id).
    + unfold put_doc.
      destruct (decide (kb = learning_index self)) as [Heq|Hne].
      * rewrite Heq, lookup_insert_eq. simpl.
        rewrite Heq in *. rewrite Hix. simpl.
        rewrite lookup_insert_ne by apply learned_id_fresh.
        unfold stored_doc. by rewrite Hix.
      * by rewrite lookup_insert_ne.
    + unfold stored_doc. by rewrite Hix.
Qed.

(** ** Search mode *)

Lemma keyword_search_logs es q k w :
  es_log (keyword_search es q k w).2
    = es_log w ++ [ReqSearch (index_name es) (keyword_query q) k] /\
  emb_log (keyword_search es q k w).2 = emb_log w.
Proof.
  unfold keyword_search, try_except, mbind, M_bind, bind, transport, lift.
  destruct (es_faults w) as [|[] ?]; simpl; try done;
    destruct (serve_search _ _ _ _) as [e|[hs ixs]]; simpl; try done;
    by destruct (collect keyword_result hs).
Qed.

Lemma vector_search_logs es qv k ms w :
  es_log (vector_search es qv k ms w).2
    = es_log w ++ [ReqSearch (index_name es) (vector_query qv k ms) k] /\
  emb_log (vector_search es qv k ms w).2 = emb_log w.
Proof.
  unfold vector_search, try_except, mbind, M_bind, bind, transport, lift.
  destruct (es_faults w) as [|[] ?]; simpl; try done;
    destruct (serve_search _ _ _ _) as [e|[hs ixs]]; simpl; try done;
    by destruct (collect vector_result hs).
Qed.

(** The world after [retrieve_context] is the world after its search. *)
Lemma retrieve_context_world self query top_k min_score w :
  (retrieve_context self query top_k min_score w).2 =
    let k := py_or_int top_k (max_chunks self) in
    if use_keyword_search self then
      (keyword_search (es_client self) query k w).2
    else
      match generate_embedding self query w with
      | (inl _, w1) => w1
      | (inr emb, w1) => (vector_search (es_client self) emb k min_score w1).2
      end.
Proof.
  unfold retrieve_context, try_except, mbind, M_bind, bind, lift.
  destruct (use_keyword_search self).
  - destruct (keyword_search _ _ _ w) as [[e|rs] w1]; simpl; [done|].
    by destruct (collect RetrievedDocument_init rs).
  - destruct (generate_embedding self query w) as [[e|emb] w1]; [done|].
    cbv zeta.
    destruct (vector_search _ _ _ _ w1) as [[e|rs] w2]; simpl; [done|].
    by destruct (collect RetrievedDocument_init rs).
Qed.

(** C8.  The search mode of an engine is a field set by its constructor:
    keyword search exactly when no embedding provider could be set up.  On
    every call of [retrieve_context], an engine in keyword mode sends no
    embedding request and one full-text search on the client's index; an
    engine in vector mode sends one embedding request for the query and,
    unless the provider fails, one kNN search with that embedding on the
    same index. *)
Theorem search_mode_fixed_at_construction es config_settings self :
  RAGService_init es config_settings = inr self ->
  use_keyword_search self
    = negb (provider_available (default settings config_settings)) /\
  es_client self = es /\
  forall query top_k min_score w,
    let r := retrieve_context self query top_k min_score w in
    let k := py_or_int top_k (max_chunks self) in
    if use_keyword_search self then
      emb_log r.2 = emb_log w /\
      es_log r.2
        = es_log w ++ [ReqSearch (index_name es) (keyword_query query) k]
    else
      exists req,
        emb_log r.2 = emb_log w ++ [req] /\
        request_text req = query /\
        ((head (emb_faults w) = Some true /\ es_log r.2 = es_log w) \/
         (head (emb_faults w) <> Some true /\
          exists query_embedding,
            generate_embedding self query w
              = (inr query_embedding, emb_sent req w) /\
            es_log r.2
              = es_log w ++ [ReqSearch (index_name es)
                               (vector_query query_embedding k min_score) k])).
Proof.
  unfold RAGService_init, provider_available. intros Hinit.
  assert (Hvec : forall req out query top_k min_score w,
    es_client self = es -> use_keyword_search self = false ->
    (forall w, generate_embedding self query w =
               try_except (provider_call req out) (fun _ => raise RAGError) w) ->
    request_text req = query ->
    let r := retrieve_context self query top_k min_score w in
    let k := py_or_int top_k (max_chunks self) in
    exists req,
      emb_log r.2 = emb_log w ++ [req] /\
      request_text req = query /\
      ((head (emb_faults w) = Some true /\ es_log r.2 = es_log w) \/
       (head (emb_faults w) <> Some true /\
        exists query_embedding,
          generate_embedding self query w
            = (inr query_embedding, emb_sent req w) /\
          es_log r.2
            = es_log w ++ [ReqSearch (index_name es)
                             (vector_query query_embedding k min_score) k]))).
  { intros req out query top_k min_score w Hes Hkw Hgen Hreq r k. subst r.
    exists req. rewrite retrieve_context_world, Hkw, Hes. cbv zeta. fold k.
    rewrite Hgen. unfold try_except, provider_call, raise.
    destruct (emb_faults w) as [|[] fs] eqn:Hf; simpl.
    - destruct (vector_search_logs es out k min_score (emb_sent req w))
        as [-> ->].
      split; [done|]. split; [done|]. right. split; [done|]. by exists out.
    - split; [done|]. split; [done|]. by left.
    - destruct (vector_search_logs es out k min_score (emb_sent req w))
        as [-> ->].
      split; [done|]. split; [done|]. right. split; [done|]. by exists out. }
  destruct (use_local_models _).
  - destruct (model_loads _) eqn:Hload; injection Hinit as <-; simpl.
    + repeat split. intros query top_k min_score w.
      by eapply (Hvec (LocalEncode _ query)).
    + repeat split; intros;
        rewrite retrieve_context_world; simpl;
        by destruct (keyword_search_logs es query
                       (py_or_int top_k (max_context_chunks
                          (default settings config_settings))) w).
  - destruct (openai_api_key _) as [key|]; [|done].
    destruct (decide (key = EmptyString)); [done|]. injection Hinit as <-; simpl.
    repeat split. intros query top_k min_score w.
    by eapply (Hvec (OpenAIEmbed _ query)).
Qed.

(** ** Index dimensions *)





(** * Further properties *)

(** ** Single documents *)

Lemma call_server_ok {A}
    (serve : gmap string index_state -> exn + (A * gmap string index_state))
    w :
  head (es_faults w) <> Some true ->
  call_server serve w =
    match serve (indices w) with
    | inl e => (inl e, server_called w)
    | inr (a, ixs) => (inr a, with_indices ixs (server_called w))
    end.
Proof. unfold call_server. by destruct (es_faults w) as [|[] ?]. Qed.

Lemma call_server_fault {A}
    (serve : gmap string index_state -> exn + (A * gmap string index_state))
    w :
  head (es_faults w) = Some true ->
  call_server serve w = (inl ConnectionError, server_called w).
Proof. unfold call_server. by destruct (es_faults w) as [|[] ?]. Qed.

Lemma index_document_run self id d index w :
  id <> EmptyString ->
  let name := py_or_str index (index_name self) in
  index_document self (Some id) (Some d) index w =
    match transport (ReqIndex name id d) (serve_index name id d) w with
    | (inl _, w') => (inl ElasticsearchError, w')
    | (inr _, w') => (inr true, w')
    end.
Proof.
  intros Hid name.
  unfold index_document, try_except, mbind, M_bind, bind, mret, M_ret, ret,
    raise.
  fold name. destruct (decide (id = EmptyString)); [done|].
  by destruct (transport _ _ w) as [[e|[]] w'].
Qed.

(** X1.  Round trip of [index_document]: on a reachable server, a document
    the target index accepts is stored under the given id (replacing what
    was there), the call returns [True], and no other document changes. *)
Theorem index_document_stores self id d index w :
  id <> EmptyString ->
  head (es_faults w) <> Some true ->
  let name := py_or_str index (index_name self) in
  doc_accepted
    (ix_body (default {| ix_body := dynamic_body; ix_docs := ∅ |}
                (indices w !! name))) d = true ->
  let r := index_document self (Some id) (Some d) index w in
  r.1 = inr true /\
  stored_doc r.2 name id = Some d /\
  (forall n i, (n, i) <> (name, id) -> stored_doc r.2 n i = stored_doc w n i) /\
  (forall n, is_Some (indices w !! n) -> index_schema r.2 n = index_schema w n).
Proof.
  intros Hid Hf name Hacc r. subst r.
  rewrite index_document_run by done. fold name.
  rewrite transport_ok by done. unfold serve_index. rewrite Hacc. simpl.
  split; [done|]. unfold stored_doc, index_schema, put_doc. simpl.
  split; [|split].
  - rewrite lookup_insert_eq. simpl. by rewrite lookup_insert_eq.
  - intros n i Hne. destruct (decide (n = name)) as [->|Hn].
    + rewrite lookup_insert_eq. simpl.
      rewrite lookup_insert_ne by congruence.
      by destruct (indices w !! name).
    + by rewrite lookup_insert_ne.
  - intros n [ix Hix]. destruct (decide (n = name)) as [->|Hn].
    + rewrite lookup_insert_eq, Hix. done.
    + by rewrite lookup_insert_ne.
Qed.

(** X2.  [index_document] returns [True] or raises [ElasticsearchError],
    nothing else; when it raises, the server holds what it held before.  A
    call without a document always raises. *)
Theorem index_document_fails_cleanly self doc_id document index w :
  let r := index_document self doc_id document index w in
  match r.1 with
  | inr b => b = true /\ is_Some document
  | inl e => e = ElasticsearchError /\ indices r.2 = indices w
  end.
Proof.
  intros r. subst r.
  unfold index_document, try_except, mbind, M_bind, bind, mret, M_ret, ret,
    raise, uuid4, transport, serve_index.
  destruct doc_id as [s|]; [destruct (decide (s = EmptyString))|];
    destruct document as [d|]; simpl; try done;
    destruct (es_faults w) as [|[] fs]; simpl; try done;
    destruct (doc_accepted _ d); simpl; eauto.
Qed.

(** ** Counting and deleting *)

Lemma count_documents_run self index_name_arg w :
  let name := py_or_str index_name_arg (index_name self) in
  count_documents self index_name_arg w =
    (inr (if bool_decide (head (es_faults w) = Some true) then O
          else match indices w !! name with
               | Some ix => size (ix_docs ix)
               | None => O
               end),
     server_called w).
Proof.
  intros name. unfold count_documents, try_except, call_server, serve_count.
  fold name.
  destruct (es_faults w) as [|[] fs]; simpl; try done;
    by destruct (indices w !! name).
Qed.

Lemma delete_index_run self index_name_arg w :
  let name := py_or_str index_name_arg (index_name self) in
  delete_index self index_name_arg w =
    if bool_decide (head (es_faults w) = Some true) then
      (inr false, server_called w)
    else match indices w !! name with
         | Some _ =>
             (inr true, with_indices (delete name (indices w))
                          (server_called w))
         | None => (inr false, server_called w)
         end.
Proof.
  intros name.
  unfold delete_index, try_except, mbind, M_bind, bind, call_server,
    serve_delete.
  fold name.
  destruct (es_faults w) as [|[] fs]; simpl; try done;
    by destruct (indices w !! name).
Qed.


(** X4.  [count_documents] cannot tell an unreachable server or a missing
    index from an empty index: in all three cases it returns 0. *)
Theorem count_documents_zero self index_name_arg w :
  head (es_faults w) = Some true \/
  indices w !! py_or_str index_name_arg (index_name self) = None ->
  count_documents self index_name_arg w = (inr O, server_called w).
Proof.
  intros H. rewrite count_documents_run. cbv zeta.
  destruct H as [H|H].
  - by rewrite bool_decide_eq_true_2.
  - rewrite H. by destruct (bool_decide _).
Qed.

(** X5.  [delete_index] never raises.  It returns [True] exactly when the
    server is reachable and holds the index; the index is then gone with all
    its documents and the other indices are as before.  When it returns
    [False] nothing has changed. *)
Theorem delete_index_removes_index self index_name_arg w :
  let name := py_or_str index_name_arg (index_name self) in
  let r := delete_index self index_name_arg w in
  exists b : bool,
    r.1 = inr b /\
    b = bool_decide (head (es_faults w) <> Some true /\
                     is_Some (indices w !! name)) /\
    (if b then
       indices r.2 !! name = None /\
       (forall id, stored_doc r.2 name id = None) /\
       (forall n, n <> name -> indices r.2 !! n = indices w !! n)
     else indices r.2 = indices w).
Proof.
  intros name r. subst r. rewrite delete_index_run. fold name.
  destruct (decide (head (es_faults w) = Some true)) as [Hf|Hf].
  - rewrite bool_decide_eq_true_2 by done. exists false. simpl.
    split; [done|]. split; [|done].
    symmetry. apply bool_decide_eq_false_2. tauto.
  - rewrite bool_decide_eq_false_2 by done.
    destruct (indices w !! name) as [ix|] eqn:Hix.
    + exists true. simpl. split; [done|]. split.
      * symmetry. apply bool_decide_eq_true_2. eauto.
      * unfold stored_doc. simpl. rewrite lookup_delete_eq.
        repeat split; try done. intros n Hn. by apply lookup_delete_ne.
    + exists false. simpl. split; [done|]. split; [|done].
      symmetry. apply bool_decide_eq_false_2. intros [_ [? ?]]. done.
Qed.

(** ** The index scripts *)

Lemma ping_run self w :
  ping self w =
    (inr (negb (bool_decide (head (es_faults w) = Some true))),
     server_called w).
Proof.
  unfold ping, try_except, client_ping.
  by destruct (es_faults w) as [|[] fs].
Qed.

Lemma create_index_creates self w name :
  name = py_or_str None (index_name self) ->
  reachable (es_faults w) ->
  let r := create_index self None w in
  r.1 = inr true /\
  es_faults r.2 = (if bool_decide (is_Some (indices w !! name))
                   then tail (es_faults w) else tail (tail (es_faults w))) /\
  indices r.2 =
    match indices w !! name with
    | Some _ => indices w
    | None =>
        <[name := {| ix_body := kb_mapping (embedding_dimension settings);
                     ix_docs := ∅ |}]> (indices w)
    end.
Proof.
  intros -> Hf r. subst r.
  rewrite create_index_run by (by apply reachable_head). cbv zeta.
  destruct (indices w !! _) as [ix|] eqn:Hix; simpl; [done|].
  pose proof (reachable_head _ (reachable_tail _ Hf)) as H1.
  destruct (tail (es_faults w)) as [|[] fs] eqn:Ht; simpl in *;
    rewrite ?Ht; done.
Qed.

Lemma delete_and_recreate_run w :
  reachable (es_faults w) ->
  let name := es_index settings in
  exists w',
    delete_and_recreate_index w = (inr true, w') /\
    indices w' =
      <[name := {| ix_body := kb_mapping (embedding_dimension settings);
                   ix_docs := ∅ |}]> (indices w).
Proof.
  intros Hf name.
  assert (Hname : name = py_or_str None (index_name ElasticsearchClient_init))
    by done.
  pose proof (reachable_tail _ Hf) as Hf1.
  pose proof (reachable_tail _ Hf1) as Hf2.
  unfold delete_and_recreate_index, close, try_except, mbind, M_bind, bind.
  rewrite ping_run.
  rewrite bool_decide_eq_false_2 by (by apply reachable_head).
  change (negb (negb false)) with false. cbv beta iota.
  rewrite delete_index_run. simpl py_or_str. fold name.
  simpl es_faults.
  rewrite bool_decide_eq_false_2 by (by apply reachable_head).
  simpl indices.
  destruct (indices w !! name) as [ix|] eqn:Hix.
  - set (w2 := with_indices (delete name (indices w))
                 (server_called (server_called w))).
    destruct (create_index_creates ElasticsearchClient_init w2 name Hname Hf2)
      as (Hc1 & _ & Hc2).
    destruct (create_index ElasticsearchClient_init None w2) as [[e|[]] w3];
      simpl in *; try done.
    eexists. split; [done|]. rewrite Hc2, lookup_delete_eq.
    by rewrite insert_delete_eq.
  - set (w2 := server_called (server_called w)).
    destruct (create_index_creates ElasticsearchClient_init w2 name Hname Hf2)
      as (Hc1 & _ & Hc2).
    destruct (create_index ElasticsearchClient_init None w2) as [[e|[]] w3];
      simpl in *; try done.
    eexists. split; [done|]. by rewrite Hc2, Hix.
Qed.

Lemma script_create_index_run w :
  reachable (es_faults w) ->
  let name := es_index settings in
  exists w',
    script_create_index w = (inr true, w') /\
    indices w' =
      match indices w !! name with
      | Some _ => indices w
      | None =>
          <[name := {| ix_body := kb_mapping (embedding_dimension settings);
                       ix_docs := ∅ |}]> (indices w)
      end.
Proof.
  intros Hf name.
  assert (Hname : name = py_or_str None (index_name ElasticsearchClient_init))
    by done.
  assert (Hf1 : reachable (es_faults (server_called w)))
    by (by apply reachable_tail).
  unfold script_create_index, close, try_except, mbind, M_bind, bind.
  rewrite ping_run.
  rewrite bool_decide_eq_false_2 by (by apply reachable_head).
  change (negb (negb false)) with false. cbv beta iota.
  destruct (create_index_creates ElasticsearchClient_init (server_called w)
              name Hname Hf1) as (Hc1 & _ & Hc2).
  destruct (create_index ElasticsearchClient_init None (server_called w))
    as [[e|[]] w3]; simpl in *; try done.
  rewrite count_documents_run. simpl. eexists. split; [done|]. done.
Qed.

(** X6.  [delete_and_recreate_index] on a reachable server returns [True]
    and leaves the knowledge-base index empty, with the schema of the
    configured dimension, whatever the index held or declared before; the
    other indices are untouched.  When the server does not answer the ping,
    the script returns [False] and changes nothing. *)
Theorem delete_and_recreate_resets_index w :
  let name := es_index settings in
  let r := delete_and_recreate_index w in
  (reachable (es_faults w) ->
   r.1 = inr true /\
   indices r.2 =
     <[name := {| ix_body := kb_mapping (embedding_dimension settings);
                  ix_docs := ∅ |}]> (indices w)) /\
  (head (es_faults w) = Some true ->
   r.1 = inr false /\ indices r.2 = indices w).
Proof.
  intros name r. subst r. split.
  - intros Hf. destruct (delete_and_recreate_run w Hf) as (w' & -> & Hw).
    done.
  - intros Hf.
    unfold delete_and_recreate_index, close, try_except, mbind, M_bind, bind.
    rewrite ping_run. rewrite bool_decide_eq_true_2 by done. done.
Qed.

(** X7.  The creating script, by contrast, keeps an index it finds: on a
    reachable server [script_create_index] returns [True], an existing
    knowledge-base index keeps its schema and its documents, and a missing
    one is created empty with the schema of the configured dimension. *)
Theorem script_create_index_keeps_existing w :
  reachable (es_faults w) ->
  let name := es_index settings in
  let r := script_create_index w in
  r.1 = inr true /\
  indices r.2 =
    match indices w !! name with
    | Some _ => indices w
    | None =>
        <[name := {| ix_body := kb_mapping (embedding_dimension settings);
                     ix_docs := ∅ |}]> (indices w)
    end.
Proof.
  intros Hf name r. subst r.
  by destruct (script_create_index_run w Hf) as (w' & -> & Hw).
Qed.

(** ** The conversation index *)


(** ** Searching *)

Lemma collect_map {A B} (g : A -> B) (l : list A) :
  collect (fun x => inr (g x)) l = inr (map g l).
Proof. induction l as [|x l IH]; simpl; [done|]. by rewrite IH. Qed.

Lemma serve_search_indices name body size ixs hs ixs' :
  serve_search name body size ixs = inr (hs, ixs') -> ixs' = ixs.
Proof.
  unfold serve_search. destruct (ixs !! name) as [ix|]; [|done].
  destruct (search_hits ix body size); [done|]. by intros [= _ <-].
Qed.

Lemma search_then_shape {B} (f : hit -> exn + B) (score : B -> Q) name body
    size w results :
  (forall h b, f h = inr b -> score b = h_score h) ->
  0 <= size ->
  (search_then f name body size w).1 = inr results ->
  Z.of_nat (length results) <= size /\
  StronglySorted (fun a b => (score b <= score a)%Q) results /\
  exists ix hs,
    indices w !! name = Some ix /\
    search_hits ix body size = inr hs /\
    Forall2 (fun h b => f h = inr b) hs results.
Proof.
  intros Hscore Hsize.
  unfold search_then, mbind, M_bind, bind, transport, lift, serve_search.
  intros H.
  assert (Hs : exists ix hs, indices w !! name = Some ix /\
             search_hits ix body size = inr hs /\
             collect f hs = inr results).
  { destruct (es_faults w) as [|[] fs]; simpl in H; try done;
      destruct (indices w !! name) as [ix|]; simpl in H; try done;
      destruct (search_hits ix body size) as [e|hs] eqn:Hh; simpl in H;
      try done; exists ix, hs; repeat split; try done;
      by destruct (collect f hs). }
  destruct Hs as (ix & hs & Hix & Hh & Hc).
  apply collect_Forall2 in Hc. split; [|split].
  - rewrite <- (Forall2_length _ _ _ Hc). by eapply search_hits_length.
  - eapply StronglySorted_Forall2;
      [|exact Hc|by eapply search_hits_descending].
    intros a a' b b' Ha Ha' Hle. simpl in *.
    by rewrite (Hscore _ _ Ha), (Hscore _ _ Ha').
  - by exists ix, hs.
Qed.

Lemma search_then_world {B} (f : hit -> exn + B) name body size w :
  indices (search_then f name body size w).2 = indices w /\
  clock (search_then f name body size w).2 = clock w /\
  emb_log (search_then f name body size w).2 = emb_log w.
Proof.
  unfold search_then, mbind, M_bind, bind, transport, lift.
  destruct (serve_search name body size (indices w)) as [e|[hs ixs]] eqn:Hs.
  - by destruct (es_faults w) as [|[] fs].
  - apply serve_search_indices in Hs as ->.
    by destruct (es_faults w) as [|[] fs]; simpl; destruct (collect f hs).
Qed.

Lemma keyword_search_unfold self query_text top_k w :
  keyword_search self query_text top_k w =
    try_except
      (search_then keyword_result (index_name self)
         (keyword_query query_text) top_k)
      (fun _ => raise ElasticsearchError) w.
Proof. done. Qed.

Lemma vector_search_unfold self qv top_k ms w :
  vector_search self qv top_k ms w =
    try_except
      (search_then vector_result (index_name self)
         (vector_query qv top_k ms) top_k)
      (fun _ => raise ElasticsearchError) w.
Proof. done. Qed.

Lemma hit_from_docs (cand : string * doc -> option hit) docs h :
  (forall p h, cand p = Some h -> h_id h = p.1 /\ h_source h = p.2) ->
  h ∈ rank (omap cand (map_to_list docs)) ->
  docs !! h_id h = Some (h_source h).
Proof.
  intros Hc Hh. apply rank_elem in Hh.
  apply list_elem_of_omap in Hh as ([id d] & Hp & Hcand).
  apply elem_of_map_to_list in Hp.
  destruct (Hc _ _ Hcand) as [-> ->]. simpl. done.
Qed.

Lemma search_hits_from_docs ix body size hs :
  search_hits ix body size = inr hs ->
  Forall (fun h => ix_docs ix !! h_id h = Some (h_source h)) hs.
Proof.
  unfold search_hits. intros H.
  destruct (size <? 0); [done|].
  destruct body as [field qv k nc ms|q fields fz].
  - destruct (field_lookup _ _) as [[| | | |n|]|]; try done.
    destruct (negb _); [done|].
    destruct (_ || _); [done|].
    injection H as <-. apply Forall_forall. intros h Hh.
    apply subseteq_take in Hh. apply list_elem_of_filter in Hh as [_ Hh].
    do 2 apply subseteq_take in Hh.
    eapply (hit_from_docs (knn_candidate field qv)); [|exact Hh].
    intros p h'. unfold knn_candidate.
    destruct (p.2 !! field) as [[]|]; try done. by intros [= <-].
  - injection H as <-. apply Forall_forall. intros h Hh.
    apply subseteq_take in Hh.
    eapply (hit_from_docs (match_candidate q fields)); [|exact Hh].
    intros p h'. unfold match_candidate.
    destruct (match_score q fields p.2); [|done]. by intros [= <-].
Qed.

(** X9.  [keyword_search] with a [top_k] between 0 and the server's result
    window of 10000, on a reachable server holding the index, always
    returns, whatever the stored documents look like: at most [top_k]
    results in non-increasing order of score, each one a stored document,
    with its [text] or, when that is missing or empty, its [answer] (else
    the empty string), and an empty dictionary for a missing [metadata].
    The server is not changed. *)
Theorem keyword_search_returns_ranked self query_text top_k w ix :
  0 <= top_k -> top_k <= 10000 ->
  head (es_faults w) <> Some true ->
  indices w !! index_name self = Some ix ->
  let r := keyword_search self query_text top_k w in
  exists results,
    r.1 = inr results /\
    Z.of_nat (length results) <= top_k /\
    descending results /\
    Forall (fun x =>
              exists d, ix_docs ix !! r_id x = Some d /\
                r_text x = py_or (dict_get d "text")
                             (default (VStr EmptyString) (d !! "answer")) /\
                r_metadata x = default (VDict ∅) (d !! "metadata")) results /\
    indices r.2 = indices w.
Proof.
  intros Hk _ Hf Hix r. subst r.
  rewrite keyword_search_unfold. unfold try_except.
  pose proof (search_then_world keyword_result (index_name self)
                (keyword_query query_text) top_k w) as (Hw & _ & _).
  pose proof (search_then_shape keyword_result r_score (index_name self)
                (keyword_query query_text) top_k w) as Hshape.
  destruct (search_then _ _ _ _ w) as [[e|results] w'] eqn:Hrun.
  - exfalso. revert Hrun.
    unfold search_then, mbind, M_bind, bind, lift.
    rewrite transport_ok by done. unfold serve_search. rewrite Hix.
    unfold search_hits, keyword_query.
    replace (top_k <? 0) with false by lia. simpl.
    unfold keyword_result. by rewrite collect_map.
  - exists results. simpl in *.
    destruct (Hshape results) as (Hlen & Hsort & ix' & hs & Hix' & Hh & H2);
      try done.
    { intros h b. unfold keyword_result. by intros [= <-]. }
    rewrite Hix in Hix'. injection Hix' as <-.
    repeat split; try done.
    apply search_hits_from_docs in Hh.
    clear -Hh H2. induction H2 as [|h x hs results Hx H2 IH]; [constructor|].
    apply Forall_cons in Hh as [Hd Hh]. constructor; [|by apply IH].
    unfold keyword_result in Hx. injection Hx as <-. simpl.
    by exists (h_source h).
Qed.

(** ** Retrieval, continued *)

Lemma RetrievedDocument_init_score r d :
  RetrievedDocument_init r = inr d -> d_score d = r_score r.
Proof.
  unfold RetrievedDocument_init.
  destruct (r_text r); try done. destruct (r_metadata r); try done.
  by intros [= <-].
Qed.

Lemma generate_embedding_raises self text w e w' :
  generate_embedding self text w = (inl e, w') -> e = RAGError.
Proof.
  unfold generate_embedding, try_except, provider_call, raise.
  destruct (use_local self).
  - destruct (embedding_service self); [|by intros [= <- _]].
    destruct (emb_faults w) as [|[] ?]; by intros [= <- _].
  - destruct (openai_client self); [|by intros [= <- _]].
    destruct (emb_faults w) as [|[] ?]; by intros [= <- _].
Qed.

(** X10.  [retrieve_context] only reads: whatever happens, the server holds
    the same indices and documents afterwards and the clock has not been
    read.  The only exception it lets out is [RAGError]. *)
Theorem retrieve_context_read_only self query top_k min_score w :
  let r := retrieve_context self query top_k min_score w in
  indices r.2 = indices w /\
  clock r.2 = clock w /\
  match r.1 with
  | inr context =>
      formatted_context context = _format_context (documents context)
  | inl e => e = RAGError
  end.
Proof.
  intros r. subst r. rewrite retrieve_context_world. cbv zeta.
  split; [|split].
  - destruct (use_keyword_search self).
    + rewrite keyword_search_unfold. unfold try_except.
      pose proof (search_then_world keyword_result
                    (index_name (es_client self)) (keyword_query query)
                    (py_or_int top_k (max_chunks self)) w) as (H & _ & _).
      by destruct (search_then _ _ _ _ w) as [[e|rs] w'].
    + pose proof (generate_embedding_server self query w) as (H & _ & _ & _).
      destruct (generate_embedding self query w) as [[e|emb] w1]; [done|].
      simpl in H. rewrite <- H.
      rewrite vector_search_unfold. unfold try_except.
      pose proof (search_then_world vector_result
                    (index_name (es_client self))
                    (vector_query emb (py_or_int top_k (max_chunks self))
                       min_score)
                    (py_or_int top_k (max_chunks self)) w1) as (H' & _ & _).
      by destruct (search_then _ _ _ _ w1) as [[e|rs] w'].
  - destruct (use_keyword_search self).
    + rewrite keyword_search_unfold. unfold try_except.
      pose proof (search_then_world keyword_result
                    (index_name (es_client self)) (keyword_query query)
                    (py_or_int top_k (max_chunks self)) w) as (_ & H & _).
      by destruct (search_then _ _ _ _ w) as [[e|rs] w'].
    + pose proof (generate_embedding_server self query w) as (_ & _ & _ & H).
      destruct (generate_embedding self query w) as [[e|emb] w1]; [done|].
      simpl in H. rewrite <- H.
      rewrite vector_search_unfold. unfold try_except.
      pose proof (search_then_world vector_result
                    (index_name (es_client self))
                    (vector_query emb (py_or_int top_k (max_chunks self))
                       min_score)
                    (py_or_int top_k (max_chunks self)) w1) as (_ & H' & _).
      by destruct (search_then _ _ _ _ w1) as [[e|rs] w'].
  - unfold retrieve_context, try_except, mbind, M_bind, bind, lift.
    destruct (use_keyword_search self).
    + destruct (keyword_search _ _ _ w) as [[e|rs] w1]; simpl; [done|].
      by destruct (collect RetrievedDocument_init rs).
    + destruct (generate_embedding self query w) as [[e|emb] w1]; [done|].
      destruct (vector_search _ _ _ _ w1) as [[e|rs] w2]; simpl; [done|].
      by destruct (collect RetrievedDocument_init rs).
Qed.

Lemma documents_shape (rs : list search_result) ds k :
  collect RetrievedDocument_init rs = inr ds ->
  Z.of_nat (length rs) <= k -> descending rs ->
  Z.of_nat (length ds) <= k /\
  StronglySorted (fun a b => (d_score b <= d_score a)%Q) ds.
Proof.
  intros Hc Hlen Hsort. apply collect_Forall2 in Hc. split.
  - by rewrite <- (Forall2_length _ _ _ Hc).
  - eapply StronglySorted_Forall2; [|exact Hc|exact Hsort].
    intros a a' b b' Ha Ha' Hle. simpl in *.
    by rewrite (RetrievedDocument_init_score _ _ Ha),
               (RetrievedDocument_init_score _ _ Ha').
Qed.

(** X11.  The documents [retrieve_context] returns are at most [top_k], or
    at most the service's [max_chunks] when [top_k] is absent or zero, and
    they come in non-increasing order of score, in keyword mode as in vector
    mode. *)
Theorem retrieve_context_bounded self query top_k min_score w context :
  0 <= py_or_int top_k (max_chunks self) ->
  (retrieve_context self query top_k min_score w).1 = inr context ->
  Z.of_nat (length (documents context)) <= py_or_int top_k (max_chunks self) /\
  StronglySorted (fun a b => (d_score b <= d_score a)%Q) (documents context).
Proof.
  intros Hk. set (k := py_or_int top_k (max_chunks self)) in *.
  unfold retrieve_context, try_except, mbind, M_bind, bind, lift. fold k.
  destruct (use_keyword_search self).
  - rewrite keyword_search_unfold. unfold try_except.
    pose proof (search_then_shape keyword_result r_score
                  (index_name (es_client self)) (keyword_query query) k w)
      as Hshape.
    destruct (search_then _ _ _ _ w) as [[e|rs] w1]; [done|].
    destruct (Hshape rs) as (Hlen & Hsort & _); try done.
    { intros h b. unfold keyword_result. by intros [= <-]. }
    simpl. destruct (collect RetrievedDocument_init rs) as [e|ds] eqn:Hc;
      [done|].
    simpl. intros [= <-]. simpl. by eapply documents_shape.
  - destruct (generate_embedding self query w) as [[e|emb] w1]; [done|].
    rewrite vector_search_unfold. unfold try_except.
    pose proof (search_then_shape vector_result r_score
                  (index_name (es_client self))
                  (vector_query emb k min_score) k w1) as Hshape.
    destruct (search_then _ _ _ _ w1) as [[e|rs] w2]; [done|].
    destruct (Hshape rs) as (Hlen & Hsort & _); try done.
    { apply vector_result_score. }
    simpl. destruct (collect RetrievedDocument_init rs) as [e|ds] eqn:Hc;
      [done|].
    simpl. intros [= <-]. simpl. by eapply documents_shape.
Qed.

(** X12.  The formatted context is the no-context message exactly when
    there is no document: no non-empty list of documents, whatever their
    texts, formats to that message. *)
Theorem format_context_empty_iff (docs : list RetrievedDocument) :
  _format_context docs = "No relevant context available." <-> docs = [].
Proof.
  split; [|by intros ->].
  destruct docs as [|d ds]; [done|].
  unfold _format_context. cbn [imap]. unfold format_part at 1.
  destruct (imap _ ds) as [|p ps]; simpl; discriminate.
Qed.

(** ** Similar conversations *)

Lemma similar_result_fields h x :
  similar_result h = inr x ->
  s_id x = h_id h /\ s_score x = h_score h /\
  h_source h !! "question" = Some (s_question x) /\
  h_source h !! "answer" = Some (s_answer x) /\
  s_feedback x = default (VStr "neutral") (h_source h !! "feedback").
Proof.
  unfold similar_result, item.
  destruct (h_source h !! "question") as [q|]; [|done].
  destruct (h_source h !! "answer") as [a|]; [|done].
  destruct (h_source h !! "timestamp") as [t|]; [|done].
  by intros [= <-].
Qed.

Lemma search_then_negative {B} (f : hit -> exn + B) name body size w :
  size < 0 -> exists e, (search_then f name body size w).1 = inl e.
Proof.
  intros Hs.
  unfold search_then, mbind, M_bind, bind, transport, lift, serve_search,
    search_hits.
  replace (size <? 0) with true by lia.
  destruct (es_faults w) as [|[] fs]; simpl; eauto;
    destruct (indices w !! name); simpl; eauto.
Qed.

(** X13.  [search_similar_conversations] never raises and only reads the
    server.  What it returns has at most [top_k] entries, in non-increasing
    order of score, every score at least the [min_score] that was passed;
    each entry is a record of the conversation index with its question and
    answer, and with feedback [neutral] when the record has none. *)
Theorem search_similar_conversations_bounded self question top_k min_score w :
  let r := search_similar_conversations self question top_k min_score w in
  exists results,
    r.1 = inr results /\
    indices r.2 = indices w /\
    (length results <= Z.to_nat top_k)%nat /\
    StronglySorted (fun a b => (s_score b <= s_score a)%Q) results /\
    Forall (fun x =>
              (min_score <= s_score x)%Q /\
              exists ix d,
                indices w !! learning_index self = Some ix /\
                ix_docs ix !! s_id x = Some d /\
                d !! "question" = Some (s_question x) /\
                d !! "answer" = Some (s_answer x) /\
                s_feedback x = default (VStr "neutral") (d !! "feedback"))
           results.
Proof.
  intros r. subst r.
  assert (Hnil : forall w' : world, indices w' = indices w ->
    exists results : list similar_conversation,
      (@inr exn _ (@nil similar_conversation), w').1 = inr results /\
      indices (@inr exn (list similar_conversation) [], w').2 = indices w /\
      (length results <= Z.to_nat top_k)%nat /\
      StronglySorted (fun a b => (s_score b <= s_score a)%Q) results /\
      Forall (fun x =>
              (min_score <= s_score x)%Q /\
              exists ix d,
                indices w !! learning_index self = Some ix /\
                ix_docs ix !! s_id x = Some d /\
                d !! "question" = Some (s_question x) /\
                d !! "answer" = Some (s_answer x) /\
                s_feedback x = default (VStr "neutral") (d !! "feedback"))
           results).
  { intros w' Hw'. exists []. simpl. repeat split; try done; try lia.
    constructor. }
  unfold search_similar_conversations, try_except, mbind, M_bind, bind.
  pose proof (generate_embedding_server (rag_service self) question w)
    as (Hix & _ & _ & _).
  destruct (generate_embedding (rag_service self) question w)
    as [[e|emb] w1]; simpl in Hix; [by apply Hnil|].
  change (let (s, w') := transport _ _ w1 in
          match s with
          | inl e => (inl e, w')
          | inr a => lift (collect similar_result a) w'
          end)
    with (search_then similar_result (learning_index self)
            (similar_query emb top_k min_score) top_k w1).
  pose proof (search_then_world similar_result (learning_index self)
                (similar_query emb top_k min_score) top_k w1) as (Hw & _ & _).
  pose proof (search_then_shape similar_result s_score (learning_index self)
                (similar_query emb top_k min_score) top_k w1) as Hshape.
  pose proof (search_then_negative similar_result (learning_index self)
                (similar_query emb top_k min_score) top_k w1) as Hneg.
  destruct (search_then _ _ _ _ w1) as [[e|results] w2]; simpl in *.
  { apply Hnil. congruence. }
  destruct (Z.ltb_spec top_k 0) as [Hk|Hk].
  { destruct (Hneg Hk) as [e He]. done. }
  destruct (Hshape results) as (Hlen & Hsort & ix & hs & Hi & Hh & H2);
    try done.
  { intros h b Hb. by apply similar_result_fields in Hb as (_ & -> & _). }
  exists results. split; [done|]. split; [congruence|].
  split; [lia|]. split; [done|].
  pose proof (search_hits_from_docs _ _ _ _ Hh) as Hdocs.
  apply search_hits_knn_min_score in Hh.
  clear -Hh Hdocs H2 Hi Hix.
  induction H2 as [|h x hs results Hx H2 IH]; [constructor|].
  apply Forall_cons in Hh as [Hs Hh].
  apply Forall_cons in Hdocs as [Hd Hdocs].
  constructor; [|by apply IH].
  apply similar_result_fields in Hx as (Hid & Hsc & Hq & Ha & Hf).
  split; [by rewrite Hsc|].
  exists ix, (h_source h). rewrite <- Hix, Hid. done.
Qed.


(** ** Documents written by the ingestion command *)

Lemma cli_index_document_no_text d embedding :
  cli_index_document d embedding !! "text" = None.
Proof.
  unfold cli_index_document.
  rewrite !lookup_insert_ne by done. apply lookup_empty.
Qed.

(** X14.  The documents [ingest_documents] writes carry their text under
    [content], and [vector_search] reads [text]: on an index that holds only
    such documents a vector search never returns a result.  On a reachable
    server it returns the empty list exactly when the server finds no hit,
    and raises [ElasticsearchError] as soon as there is a hit (or the server
    refuses the query); on an unreachable one it raises too. *)
Theorem vector_search_fails_on_cli_documents self qv top_k min_score w ix :
  indices w !! index_name self = Some ix ->
  (forall id d, ix_docs ix !! id = Some d ->
                exists c e, d = cli_index_document c e) ->
  (vector_search self qv top_k min_score w).1 =
    if bool_decide (head (es_faults w) = Some true)
    then inl ElasticsearchError
    else match search_hits ix (vector_query qv top_k min_score) top_k with
         | inr [] => inr []
         | _ => inl ElasticsearchError
         end.
Proof.
  intros Hix Hcli. rewrite vector_search_unfold.
  unfold try_except, search_then, mbind, M_bind, bind, lift.
  destruct (decide (head (es_faults w) = Some true)) as [Hf|Hf].
  { rewrite bool_decide_eq_true_2 by done. by rewrite transport_fault. }
  rewrite bool_decide_eq_false_2 by done.
  rewrite transport_ok by done. unfold serve_search. rewrite Hix.
  destruct (search_hits ix _ top_k) as [e|hs] eqn:Hh; [done|].
  apply search_hits_from_docs in Hh.
  destruct hs as [|h hs]; [done|].
  apply Forall_cons in Hh as [Hd _].
  destruct (Hcli _ _ Hd) as (c & e & Hsrc).
  cbn [collect]. unfold vector_result at 1.
  by rewrite Hsrc, cli_index_document_no_text.
Qed.

Lemma ingest_documents_step es rag d (s f : nat) w :
  exists s' f',
    (try_except
       (embedding ← generate_embedding rag (content d);
        _ ← index_document es None (Some (cli_index_document d embedding))
              (Some (elasticsearch_index_name settings));
        mret (S s, f))
       (fun _ => mret (s, S f)) w).1 = inr (s', f') /\
    (s' + f' = S (s + f))%nat.
Proof.
  unfold try_except, mbind, M_bind, bind, mret, M_ret, ret.
  destruct (generate_embedding rag (content d) w) as [[e|emb] w1].
  - exists s, (S f). simpl. split; [done|lia].
  - destruct (index_document es None _ _ w1) as [[e|b] w2].
    + exists s, (S f). simpl. split; [done|lia].
    + exists (S s), f. simpl. split; [done|lia].
Qed.

Lemma ingest_documents_loop_counts es rag documents (s f : nat) w :
  exists s' f',
    (ingest_documents_loop es rag documents s f w).1 = inr (s', f') /\
    (s' + f' = s + f + length documents)%nat.
Proof.
  revert s f w. induction documents as [|d documents IH]; intros s f w.
  - exists s, f. simpl. split; [done|lia].
  - cbn [ingest_documents_loop]. unfold mbind, M_bind. unfold bind at 1.
    destruct (ingest_documents_step es rag d s f w) as (s1 & f1 & Hrun & Hsum).
    destruct (try_except _ _ w) as [[e|r] w1]; simpl in Hrun; [done|].
    injection Hrun as ->. simpl.
    destruct (IH s1 f1 w1) as (s' & f' & Hr & Hs).
    exists s', f'. split; [done|]. simpl. lia.
Qed.

(** X15.  [ingest_documents] never raises, whatever the provider and the
    server do: it returns its statistics, with [total] the number of
    documents given and every document counted exactly once, as a success or
    as a failure. *)
Theorem ingest_documents_counts_every_document es rag documents w :
  exists stats,
    (ingest_documents es rag documents w).1 = inr stats /\
    st_total stats = length documents /\
    (st_success stats + st_failed stats = st_total stats)%nat.
Proof.
  unfold ingest_documents, mbind, M_bind, bind, mret, M_ret, ret.
  destruct (ingest_documents_loop_counts es rag documents 0 0 w)
    as (s & f & Hrun & Hsum).
  destruct (ingest_documents_loop es rag documents 0 0 w) as [[e|r] w1];
    simpl in Hrun; [done|].
  injection Hrun as ->. eexists. split; [done|]. simpl. split; [done|lia].
Qed.

Lemma ingest_documents_loop_no_embeddings es rag documents (s f : nat) w :
  use_local rag = true -> embedding_service rag = None ->
  ingest_documents_loop es rag documents s f w =
    (inr (s, (f + length documents)%nat), w).
Proof.
  intros Hl Hs. revert f w.
  induction documents as [|d documents IH]; intros f w.
  - simpl. by rewrite Nat.add_0_r.
  - cbn [ingest_documents_loop]. unfold mbind, M_bind. unfold bind at 1.
    unfold try_except at 1. unfold bind at 1.
    unfold generate_embedding, try_except, raise. rewrite Hl, Hs.
    simpl. rewrite IH. do 3 f_equal. lia.
Qed.

(** X16.  A retrieval service that fell back to keyword search has no
    embedding model.  With such a service [ingest_documents] counts every
    document as failed and sends nothing: the world afterwards is the world
    before. *)
Theorem ingest_documents_without_embeddings es es' cfg rag documents w :
  RAGService_init es' cfg = inr rag ->
  use_keyword_search rag = true ->
  ingest_documents es rag documents w =
    (inr {| st_total := length documents; st_success := 0;
            st_failed := length documents |}, w).
Proof.
  intros Hinit Hkw.
  assert (use_local rag = true /\ embedding_service rag = None) as [Hl Hs].
  { revert Hinit Hkw. unfold RAGService_init.
    destruct (use_local_models _).
    - destruct (model_loads _); intros [= <-]; simpl; done.
    - destruct (openai_api_key _) as [key|]; [|done].
      destruct (decide (key = EmptyString)); [done|].
      intros [= <-]. simpl. done. }
  unfold ingest_documents, mbind, M_bind, bind.
  by rewrite ingest_documents_loop_no_embeddings.
Qed.


(** ** Ingesting files *)

Lemma generate_embeddings_batch_local self texts w :
  openai_client self = None ->
  generate_embeddings_batch self texts w = (inl RAGError, w).
Proof.
  intros H. unfold generate_embeddings_batch, try_except, raise.
  by rewrite H.
Qed.

Lemma RAGService_init_local es cfg rag :
  RAGService_init es cfg = inr rag ->
  use_local rag = true -> openai_client rag = None.
Proof.
  unfold RAGService_init. destruct (use_local_models _).
  - by destruct (model_loads _); intros [= <-].
  - destruct (openai_api_key _) as [key|]; [|done].
    destruct (decide (key = EmptyString)); [done|]. by intros [= <-].
Qed.

(** What [ingest_file] returns, path by path. *)
Lemma ingest_file_run fuel self file doc_type product language w :
  ingest_file fuel self file doc_type product language w =
    match f_content file with
    | None => (inr (Some {| ir_chunks := 0; ir_errors := FailedCount 1 |}), w)
    | Some content =>
        let metadata :=
          file_metadata file doc_type product language
            (isoformat (clock w)) in
        match chunk_text fuel (chunker self) content metadata with
        | None => (inr None, tick w)
        | Some chunks =>
            match generate_embeddings_batch (di_rag_service self)
                    (map chunk_text_of chunks) (tick w) with
            | (inl _, w1) =>
                (inr (Some {| ir_chunks := 0;
                              ir_errors := FailedCount (length chunks) |}),
                 w1)
            | (inr embeddings, w1) =>
                let documents :=
                  imap (chunk_document file) (zip chunks embeddings) in
                match bulk_index (di_es_client self) documents w1 with
                | (inl _, w2) =>
                    (inr (Some {| ir_chunks := 0;
                                  ir_errors :=
                                    FailedCount (length documents) |}), w2)
                | (inr result, w2) =>
                    (inr (Some {| ir_chunks := success result;
                                  ir_errors := failed result |}), w2)
                end
            end
        end
    end.
Proof.
  unfold ingest_file. destruct (f_content file) as [content|]; [|done].
  unfold mbind, M_bind. unfold bind at 1. unfold utcnow. cbv zeta.
  destruct (chunk_text _ _ _ _) as [chunks|]; [|done].
  unfold bind at 1. unfold try_except at 1. unfold bind at 1.
  destruct (generate_embeddings_batch _ _ (tick w)) as [[e|embeddings] w1];
    [done|].
  unfold mret, M_ret, ret. unfold try_except, bind.
  by destruct (bulk_index _ _ w1) as [[e|result] w2].
Qed.

Lemma ingest_file_failed_count fuel self file doc_type product language w
    result w' n :
  ingest_file fuel self file doc_type product language w
    = (inr (Some result), w') ->
  ir_errors result = FailedCount n -> ir_chunks result = 0%nat.
Proof.
  rewrite ingest_file_run.
  destruct (f_content file) as [content|]; [|by intros [= <- _]].
  cbv zeta. destruct (chunk_text _ _ _ _) as [chunks|]; [|done].
  destruct (generate_embeddings_batch _ _ _) as [[e|embeddings] w1];
    [by intros [= <- _]|].
  pose proof (bulk_index_all_or_error (di_es_client self)
                (imap (chunk_document file) (zip chunks embeddings)) w1) as Hb.
  destruct (bulk_index _ _ w1) as [[e|res] w2]; [by intros [= <- _]|].
  simpl in Hb. destruct Hb as [_ Hb]. intros [= <- _]. simpl.
  by rewrite Hb.
Qed.

Lemma ingest_files_returned fuel self files doc_type product language
    (n c e : nat) w n' c' e' w' :
  ingest_files fuel self files doc_type product language n c e w
    = (Returned n' c' e', w') ->
  n' = n /\ c' = c.
Proof.
  revert c e w. induction files as [|file files IH]; intros c e w.
  - simpl. by intros [= <- <- _ _].
  - cbn [ingest_files].
    destruct (ingest_file _ _ _ _ _ _ w) as [[x|[result|]] w1] eqn:Hf;
      [done| |done].
    destruct (ir_errors result) as [k|items] eqn:He; [|done].
    intros H. apply IH in H as [-> ->]. split; [done|].
    rewrite (ingest_file_failed_count _ _ _ _ _ _ _ _ _ _ Hf He). lia.
Qed.

(** X18.  [ingest_directory] adds [result["errors"]] of every file to an
    integer, and for a file that was indexed that entry is the list
    [bulk_index] returned.  So the summary is returned only when no file
    was indexed: whenever [ingest_directory] returns, [total_chunks] is 0
    (and [files_processed] is the number of files found). *)
Theorem ingest_directory_returns_no_chunks fuel self files doc_type product
    language w files_processed total_chunks total_errors :
  (ingest_directory fuel self files doc_type product language w).1
    = Returned files_processed total_chunks total_errors ->
  files_processed = length files /\ total_chunks = 0%nat.
Proof.
  unfold ingest_directory.
  destruct (ingest_files _ _ _ _ _ _ _ _ _ w) as [out w'] eqn:H.
  simpl. intros ->. by apply ingest_files_returned in H.
Qed.

Lemma ingest_files_indexed fuel self file files doc_type product language
    (n c e : nat) w result w' :
  ingest_file fuel self file doc_type product language w
    = (inr (Some result), w') ->
  (0 < ir_chunks result)%nat ->
  ingest_files fuel self (file :: files) doc_type product language n c e w
    = (RaisedTypeError, w').
Proof.
  intros Hf Hpos. cbn [ingest_files]. rewrite Hf.
  destruct (ir_errors result) as [k|items] eqn:He; [|done].
  rewrite (ingest_file_failed_count _ _ _ _ _ _ _ _ _ _ Hf He) in Hpos. lia.
Qed.


(** ** Chunking *)

Lemma append_nil_r (s : string) : s +:+ EmptyString = s.
Proof.
  induction s as [|c s IH]; [done|].
  change (String c (s +:+ EmptyString) = String c s). by rewrite IH.
Qed.

Lemma append_assoc (a b c : string) : (a +:+ b) +:+ c = a +:+ (b +:+ c).
Proof.
  induction a as [|x a IH]; [done|].
  change (String x ((a +:+ b) +:+ c) = String x (a +:+ (b +:+ c))).
  by rewrite IH.
Qed.

Lemma no_space_app a b : no_space (a +:+ b) = no_space a && no_space b.
Proof.
  induction a as [|x a IH]; [done|].
  change (negb (is_space x) && no_space (a +:+ b)
          = negb (is_space x) && no_space a && no_space b).
  rewrite IH. by destruct (is_space x).
Qed.

Lemma strip_truthy_app a b :
  strip_truthy (a +:+ b) = strip_truthy a || strip_truthy b.
Proof.
  induction a as [|x a IH]; [done|].
  change (negb (is_space x) || strip_truthy (a +:+ b)
          = negb (is_space x) || strip_truthy a || strip_truthy b).
  rewrite IH. by destruct (is_space x).
Qed.

Lemma strip_truthy_word w : word w -> strip_truthy w = true.
Proof.
  intros [Hne Hns]. destruct w as [|c w]; [done|].
  simpl in *. by destruct (is_space c).
Qed.

Lemma split_from_word w rest cur :
  no_space w = true ->
  split_from (w +:+ rest) cur = split_from rest (cur +:+ w).
Proof.
  revert cur. induction w as [|c w IH]; intros cur Hns.
  - by rewrite append_nil_r.
  - simpl in Hns. apply andb_true_iff in Hns as [Hc Hns].
    change (String c w +:+ rest) with (String c (w +:+ rest)).
    cbn [split_from]. destruct (is_space c); [done|].
    rewrite IH by done. by rewrite append_assoc.
Qed.

Lemma py_split_join ws : Forall word ws -> py_split (join " " ws) = ws.
Proof.
  unfold py_split. induction 1 as [|w ws [Hne Hns] Hws IH]; [done|].
  destruct ws as [|w2 ws].
  - cbn [join]. rewrite <- (append_nil_r w) at 1.
    rewrite split_from_word by done.
    change (EmptyString +:+ w) with w. cbn [split_from].
    by destruct (decide (w = EmptyString)).
  - change (join " " (w :: w2 :: ws))
      with (w +:+ String " " (join " " (w2 :: ws))).
    rewrite split_from_word by done.
    change (EmptyString +:+ w) with w. cbn [split_from].
    change (is_space " ") with true. cbv iota.
    destruct (decide (w = EmptyString)); [done|]. by rewrite IH.
Qed.

Lemma split_from_words s cur :
  no_space cur = true -> Forall word (split_from s cur).
Proof.
  revert cur. induction s as [|c s IH]; intros cur Hns; cbn [split_from].
  - destruct (decide (cur = EmptyString)); [constructor|].
    by repeat constructor.
  - destruct (is_space c) eqn:Hc.
    + destruct (decide (cur = EmptyString)); [by apply IH|].
      constructor; [done|by apply IH].
    + apply IH. rewrite no_space_app, Hns. simpl. by rewrite Hc.
Qed.

Lemma py_split_words s : Forall word (py_split s).
Proof. by apply split_from_words. Qed.

Lemma join_truthy ws :
  ws <> [] -> Forall word ws -> strip_truthy (join " " ws) = true.
Proof.
  intros Hne Hws. destruct Hws as [|w ws Hw Hws]; [done|].
  apply strip_truthy_word in Hw. destruct ws as [|w2 ws]; [done|].
  change (join " " (w :: w2 :: ws))
    with (w +:+ String " " (join " " (w2 :: ws))).
  by rewrite strip_truthy_app, Hw.
Qed.

Lemma py_slice_window {A} (l : list A) a b :
  0 <= a -> a < Z.of_nat (length l) -> a < b ->
  py_slice l a b <> [] /\
  Z.of_nat (length (py_slice l a b)) <= b - a /\
  forall P : A -> Prop, Forall P l -> Forall P (py_slice l a b).
Proof.
  intros Ha Hl Hb. unfold py_slice, slice_index.
  replace (a <? 0) with false by lia. replace (b <? 0) with false by lia.
  split; [|split].
  - intros H. apply (f_equal length) in H.
    rewrite length_take, length_drop in H. simpl in H. lia.
  - rewrite length_take, length_drop. lia.
  - intros P HP. by apply Forall_take, Forall_drop.
Qed.

Lemma py_slice_elem {A} (l : list A) a b (j : nat) x :
  0 <= a -> a <= Z.of_nat j -> Z.of_nat j < b ->
  l !! j = Some x -> x ∈ py_slice l a b.
Proof.
  intros Ha Haj Hjb Hx.
  assert (Hlen : (j < length l)%nat) by (apply lookup_lt_is_Some; eauto).
  unfold py_slice, slice_index.
  replace (a <? 0) with false by lia. replace (b <? 0) with false by lia.
  apply (list_elem_of_lookup_2 _ (j - Z.to_nat a)).
  rewrite lookup_take_lt by lia. rewrite lookup_drop. rewrite <- Hx.
  f_equal. lia.
Qed.

Lemma chunk_loop_mono fuel fuel' self metadata words start chunk_id acc r :
  (fuel <= fuel')%nat ->
  chunk_loop fuel self metadata words start chunk_id acc = Some r ->
  chunk_loop fuel' self metadata words start chunk_id acc = Some r.
Proof.
  revert fuel' start chunk_id acc.
  induction fuel as [|fuel IH]; intros fuel' start chunk_id acc Hle; [done|].
  destruct fuel' as [|fuel']; [lia|]. cbn [chunk_loop].
  destruct (start <? _); [|done].
  destruct (strip_truthy _); apply IH; lia.
Qed.

Lemma chunk_loop_stuck fuel self metadata words start chunk_id acc :
  chunk_size self <= overlap self -> words <> [] -> start <= 0 ->
  chunk_loop fuel self metadata words start chunk_id acc = None.
Proof.
  intros Hs Hw. revert start chunk_id acc.
  induction fuel as [|fuel IH]; intros start chunk_id acc Hstart; [done|].
  cbn [chunk_loop].
  assert (Hlen : 0 < Z.of_nat (length words)).
  { destruct words; [done|]. simpl. lia. }
  replace (start <? Z.of_nat (length words)) with true by lia.
  cbv zeta. destruct (strip_truthy _); apply IH; lia.
Qed.

(** The loop, unrolled: from [start] on it adds one chunk per step of
    [chunk_size - overlap] words until the words are used up. *)
Lemma chunk_loop_closed self metadata words :
  0 < chunk_size self -> overlap self < chunk_size self ->
  Forall word words ->
  forall fuel start chunk_id acc,
    0 <= start ->
    Z.max 0 (Z.of_nat (length words) - start) < Z.of_nat fuel ->
    exists res,
      chunk_loop fuel self metadata words start chunk_id acc
        = Some (acc ++ res) /\
      Z.of_nat (length words) - start
        <= Z.of_nat (length res) * (chunk_size self - overlap self) /\
      Z.of_nat (length res) * (chunk_size self - overlap self)
        < Z.max 0 (Z.of_nat (length words) - start)
          + (chunk_size self - overlap self) /\
      forall (i : nat) c, res !! i = Some c ->
        let a := start + Z.of_nat i * (chunk_size self - overlap self) in
        let ws := py_slice words a (a + chunk_size self) in
        a < Z.of_nat (length words) /\
        chunk_text_of c = join " " ws /\
        chunk_metadata c =
          <["chunk_size" := VInt (Z.of_nat (length ws))]>
            (<["chunk_id" := VInt (chunk_id + Z.of_nat i + 1)]> metadata).
Proof.
  intros Hcs Hov Hwords.
  induction fuel as [|fuel IH]; intros start chunk_id acc Hstart Hfuel;
    [lia|].
  cbn [chunk_loop]. destruct (Z.ltb_spec start (Z.of_nat (length words)))
    as [Hin|Hout].
  - cbv zeta.
    destruct (py_slice_window words start (start + chunk_size self))
      as (Hne & _ & Hall); try lia.
    rewrite join_truthy by (try done; by apply Hall).
    set (c0 := {| chunk_text_of := _ |}).
    destruct (IH (start + (chunk_size self - overlap self)) (chunk_id + 1)
                (acc ++ [c0])) as (res & Hrun & Hlo & Hhi & Hres); try lia.
    exists (c0 :: res). split; [|split; [|split]].
    + rewrite Hrun. by rewrite <- app_assoc.
    + cbn [length]. lia.
    + cbn [length]. destruct res as [|c1 res]; [simpl; lia|].
      cbn [length] in *. nia.
    + intros [|i] c Hc; simpl in Hc.
      * injection Hc as <-. cbv zeta.
        replace (start + Z.of_nat 0 * (chunk_size self - overlap self))
          with start by lia.
        replace (chunk_id + Z.of_nat 0 + 1) with (chunk_id + 1) by lia.
        done.
      * specialize (Hres i c Hc). cbv zeta in Hres. cbv zeta.
        replace (start + Z.of_nat (S i) * (chunk_size self - overlap self))
          with (start + (chunk_size self - overlap self)
                + Z.of_nat i * (chunk_size self - overlap self)) by lia.
        replace (chunk_id + Z.of_nat (S i) + 1)
          with (chunk_id + 1 + Z.of_nat i + 1) by lia.
        done.
  - exists []. rewrite app_nil_r. simpl. repeat split; try done; lia.
Qed.

(** X19.  With an overlap that is not smaller than the chunk size the loop
    of [chunk_text] never advances: on a text with at least one word it
    does not end, however long it runs. *)
Theorem chunk_text_does_not_end self text metadata fuel :
  chunk_size self <= overlap self ->
  py_split text <> [] ->
  chunk_text fuel self text metadata = None.
Proof.
  intros Hs Hw. unfold chunk_text. by apply chunk_loop_stuck.
Qed.

(** X20.  With a positive chunk size and a smaller overlap [chunk_text]
    ends (after at most one iteration per word) and its result has a closed
    form: with [step = chunk_size - overlap], chunk [i] (from 0) is made of
    the words [i*step .. i*step + chunk_size) of the text, joined by single
    blanks, so that splitting its text gives these words back; it is never
    empty, has at most [chunk_size] words, and its metadata are those given
    plus [chunk_id = i + 1] and [chunk_size], its number of words.  There are
    as many chunks as steps are needed to pass the last word. *)
Theorem chunk_text_closed_form self text metadata fuel :
  0 < chunk_size self -> overlap self < chunk_size self ->
  (length (py_split text) < fuel)%nat ->
  let words := py_split text in
  let step := chunk_size self - overlap self in
  exists chunks,
    chunk_text fuel self text metadata = Some chunks /\
    Z.of_nat (length words) <= Z.of_nat (length chunks) * step /\
    Z.of_nat (length chunks) * step < Z.of_nat (length words) + step /\
    forall (i : nat) c, chunks !! i = Some c ->
      let ws := py_slice words (Z.of_nat i * step)
                  (Z.of_nat i * step + chunk_size self) in
      ws <> [] /\
      Z.of_nat (length ws) <= chunk_size self /\
      chunk_text_of c = join " " ws /\
      py_split (chunk_text_of c) = ws /\
      chunk_metadata c =
        <["chunk_size" := VInt (Z.of_nat (length ws))]>
          (<["chunk_id" := VInt (Z.of_nat i + 1)]> metadata).
Proof.
  intros Hcs Hov Hfuel words step. unfold chunk_text. fold words.
  destruct (chunk_loop_closed self metadata words Hcs Hov
              (py_split_words text) fuel 0 0 [])
    as (chunks & Hrun & Hlo & Hhi & Hres); try (subst words; lia).
  exists chunks. fold step in Hlo, Hhi.
  split; [exact Hrun|]. split; [lia|]. split; [lia|].
  intros i c Hc. specialize (Hres i c Hc). cbv zeta in Hres. fold step in Hres.
  replace (0 + Z.of_nat i * step) with (Z.of_nat i * step) in Hres by lia.
  replace (0 + Z.of_nat i + 1) with (Z.of_nat i + 1) in Hres by lia.
  destruct Hres as (Hin & Htext & Hmeta). cbv zeta.
  destruct (py_slice_window words (Z.of_nat i * step)
              (Z.of_nat i * step + chunk_size self))
    as (Hne & Hlen & Hall); try nia.
  split; [done|]. split; [lia|]. split; [done|]. split; [|done].
  rewrite Htext. apply py_split_join, Hall, py_split_words.
Qed.

(** X21.  With an overlap that is not negative (and smaller than the chunk
    size) [chunk_text] ends and no word is lost: every word of the text is
    a word of some chunk that is returned. *)
Theorem chunk_text_covers_every_word self text metadata fuel :
  0 <= overlap self -> overlap self < chunk_size self ->
  (length (py_split text) < fuel)%nat ->
  exists chunks,
    chunk_text fuel self text metadata = Some chunks /\
    forall w, w ∈ py_split text ->
      exists c, c ∈ chunks /\ w ∈ py_split (chunk_text_of c).
Proof.
  intros Hov Hcs Hfuel.
  set (step := chunk_size self - overlap self).
  unfold chunk_text.
  destruct (chunk_loop_closed self metadata (py_split text)
              ltac:(lia) Hcs (py_split_words text) fuel 0 0 [])
    as (chunks & Hrun & Hlo & Hhi & Hres); try lia.
  exists chunks. split; [exact Hrun|]. intros w Hw.
  fold step in Hlo, Hhi, Hres.
  apply list_elem_of_lookup_1 in Hw as [j Hj].
  assert (Hjlen : (j < length (py_split text))%nat)
    by (apply lookup_lt_is_Some; eauto).
  set (i := Z.to_nat (Z.of_nat j / step)).
  assert (Hi : Z.of_nat i * step <= Z.of_nat j < Z.of_nat i * step + step).
  { subst i. rewrite Z2Nat.id by (apply Z.div_pos; lia).
    pose proof (Z.mul_div_le (Z.of_nat j) step ltac:(lia)).
    pose proof (Z.mul_succ_div_gt (Z.of_nat j) step ltac:(lia)). lia. }
  clearbody i.
  assert (Hilen : (i < length chunks)%nat) by nia.
  apply lookup_lt_is_Some in Hilen as [c Hc].
  exists c. split; [by eapply list_elem_of_lookup_2|].
  destruct (Hres i c Hc) as (Hin & Htext & _).
  destruct (py_slice_window (py_split text) (0 + Z.of_nat i * step)
              (0 + Z.of_nat i * step + chunk_size self))
    as (_ & _ & Hall); try nia.
  rewrite Htext, py_split_join by apply Hall, py_split_words.
  apply (py_slice_elem _ _ _ j); try done; subst step; nia.
Qed.

(** ** Ingesting files, continued *)

Lemma chunk_loop_ends fuel self metadata words start chunk_id acc :
  overlap self < chunk_size self ->
  Z.max 0 (Z.of_nat (length words) - start) < Z.of_nat fuel ->
  is_Some (chunk_loop fuel self metadata words start chunk_id acc).
Proof.
  intros Hov. revert start chunk_id acc.
  induction fuel as [|fuel IH]; intros start chunk_id acc Hfuel; [lia|].
  cbn [chunk_loop].
  destruct (Z.ltb_spec start (Z.of_nat (length words))); [|by eexists].
  cbv zeta. destruct (strip_truthy _); apply IH; lia.
Qed.

(** X17.  A retrieval service built for local models has no OpenAI client,
    and [generate_embeddings_batch] uses nothing else: with such a service
    [ingest_file] never indexes anything.  Given a chunker whose overlap is
    smaller than its chunk size, the call returns (one iteration per word
    of the file is enough), and what it returns is 0 chunks and an error
    count, 1 for a file that cannot be read and the number of chunks of the
    file otherwise; no request has gone to the server or to a provider. *)
Theorem ingest_file_local_models_indexes_nothing fuel self es cfg file
    doc_type product language w :
  RAGService_init es cfg = inr (di_rag_service self) ->
  use_local (di_rag_service self) = true ->
  overlap (chunker self) < chunk_size (chunker self) ->
  (forall content, f_content file = Some content ->
                   (length (py_split content) < fuel)%nat) ->
  let r := ingest_file fuel self file doc_type product language w in
  exists result,
    r.1 = inr (Some result) /\
    ir_chunks result = 0%nat /\
    match f_content file with
    | None => ir_errors result = FailedCount 1
    | Some content =>
        exists chunks,
          chunk_text fuel (chunker self) content
            (file_metadata file doc_type product language
               (isoformat (clock w))) = Some chunks /\
          ir_errors result = FailedCount (length chunks)
    end /\
    indices r.2 = indices w /\ es_log r.2 = es_log w /\
    emb_log r.2 = emb_log w /\ emb_faults r.2 = emb_faults w /\
    es_faults r.2 = es_faults w.
Proof.
  intros Hinit Hlocal Hov Hfuel r. subst r. rewrite ingest_file_run.
  destruct (f_content file) as [content|]; [|by eexists].
  cbv zeta.
  destruct (chunk_loop_ends fuel (chunker self)
              (file_metadata file doc_type product language
                 (isoformat (clock w)))
              (py_split content) 0 0 [] Hov) as [chunks Hchunks].
  { specialize (Hfuel content eq_refl). lia. }
  change (chunk_loop fuel (chunker self)
            (file_metadata file doc_type product language
               (isoformat (clock w))) (py_split content) 0 0 [])
    with (chunk_text fuel (chunker self) content
            (file_metadata file doc_type product language
               (isoformat (clock w)))) in Hchunks.
  rewrite Hchunks.
  rewrite generate_embeddings_batch_local
    by (by eapply RAGService_init_local).
  eexists. split; [done|]. split; [done|]. split; [|done].
  exists chunks. done.
Qed.

End Properties.

(** * The theorems at concrete inputs

    From here on the environment is the deployment [Demo.env]. *)

#[local] Existing Instance Demo.env.

Lemma demo_similarity_nonneg q v : (0 <= knn_similarity q v)%Q.
Proof. apply Qabs_nonneg. Qed.

(** A kNN search for the two passages nearest to [(1, 0)] scoring at least
    one half returns [p1] (score 1) and then [p2] (score 4/5). *)
Example vector_search_demo :
  match (vector_search
           Demo.client [1; 0]%Q 2 (Some (1 # 2)%Q) Demo.kb_world).1 with
  | inr results =>
      map (fun r => (r_id r, r_score r)) results
        = [("p1", 1%Q); ("p2", (4 # 5)%Q)]
  | inl _ => False
  end.
Proof. vm_compute. reflexivity. Qed.

Lemma vector_search_ranked_witness :
  let r := vector_search
             Demo.client [1; 0]%Q 2 (Some (1 # 2)%Q) Demo.kb_world in
  (exists nc ms,
      es_log r.2 =
        es_log Demo.kb_world ++
          [ReqSearch (index_name Demo.client)
             (Knn "embedding" [1; 0]%Q 2 nc ms) 2]
      /\ 10 * 2 <= nc) /\
  match r.1 with
  | inr results =>
      Z.of_nat (length results) <= 2 /\
      descending results /\
      forall m, Some (1 # 2)%Q = Some m ->
                Forall (fun x => (m <= r_score x)%Q) results
  | inl e => e = ElasticsearchError
  end.
Proof.
  apply (vector_search_ranked Demo.client [1; 0]%Q 2 (Some (1 # 2)%Q)
           Demo.kb_world).
  - lia.
  - apply demo_similarity_nonneg.
Defined.

Lemma retrieve_context_no_hits_witness :
  retrieve_context Demo.rag_small
    "When are you open?" None None Demo.empty_kb_world
  = (inr {| documents := [];
            formatted_context := "No relevant context available." |},
     es_sent (ReqSearch "kb"
                (Knn "embedding" [18 # 10; 1 # 10]%Q 5 50 (7 # 10)%Q) 5)
       (emb_sent (LocalEncode "tiny" "When are you open?")
          Demo.empty_kb_world)).
Proof.
  apply (retrieve_context_no_hits
           Demo.rag_small "When are you open?" None None Demo.empty_kb_world).
  simpl.
  exists [18 # 10; 1 # 10]%Q,
    (emb_sent (LocalEncode "tiny" "When are you open?") Demo.empty_kb_world).
  split; vm_compute; reflexivity.
Defined.

Lemma create_index_idempotent_witness :
  let w := Demo.world_of ∅ in
  let r1 := create_index Demo.client None w in
  let r2 := create_index Demo.client None r1.2 in
  r1.1 = inr true /\
  r2.1 = inr true /\
  indices r2.2 = indices r1.2 /\
  (is_Some (indices w !! py_or_str None (index_name Demo.client)) ->
   indices r1.2 = indices w).
Proof.
  apply (create_index_idempotent Demo.client None
           (Demo.world_of ∅)).
  constructor.
Defined.

(** Creation on an existing index of another dimension leaves it as it is. *)
Example create_index_keeps_schema :
  let w := Demo.world_of (<["kb" := {| ix_body := kb_mapping 1536;
                                       ix_docs := ∅ |}]> ∅) in
  let r := create_index Demo.client None w in
  r.1 = inr true /\ index_schema r.2 "kb" = Some (kb_mapping 1536).
Proof. vm_compute. done. Qed.

Lemma promote_creates_learned_passage_witness :
  let self := Demo.learning Demo.rag_small in
  let w := Demo.conv_world in
  let passage :=
    kb_document "c1" (VStr "What are your hours?")
      (VStr "9-5 Mon-Fri") (VVec [1; 0]%Q) "learned_faq" "general"
      (isoformat 0) (isoformat 1) in
  let r := promote_to_knowledge_base
             self "c1" "learned_faq" "general" w in
  r.1 = inr true /\
  stored_doc r.2 "kb" "learned_c1" = Some passage /\
  passage !! "id" = Some (VStr "learned_c1") /\
  passage !! "text"
    = Some (VStr ("Q: What are your hours?" +:+ nl +:+ nl +:+ "A: 9-5 Mon-Fri")) /\
  passage !! "embedding" = Demo.conversation !! "question_embedding" /\
  (exists m, passage !! "metadata" = Some (VDict m) /\
             m !! "original_conversation_id" = Some (VStr "c1")) /\
  emb_log r.2 = emb_log w /\
  stored_doc r.2 "kb_conversations" "c1" = Some Demo.conversation.
Proof.
  apply (promote_creates_learned_passage (Demo.learning Demo.rag_small)
           "c1" "learned_faq" "general" Demo.conv_world Demo.conversation
           (VStr "What are your hours?") (VStr "9-5 Mon-Fri")
           (VVec [1; 0]%Q)).
  - vm_compute. reflexivity.
  - vm_compute. reflexivity.
  - vm_compute. reflexivity.
  - vm_compute. reflexivity.
  - constructor.
  - vm_compute. reflexivity.
Defined.

Lemma search_mode_fixed_at_construction_witness :
  let self := Demo.rag_default in
  use_keyword_search self = false /\
  es_client self = Demo.client /\
  forall query top_k min_score w,
    let r := retrieve_context
               self query top_k min_score w in
    let k := py_or_int top_k (max_chunks self) in
    exists req,
      emb_log r.2 = emb_log w ++ [req] /\
      request_text req = query /\
      ((head (emb_faults w) = Some true /\ es_log r.2 = es_log w) \/
       (head (emb_faults w) <> Some true /\
        exists query_embedding,
          generate_embedding self query w
            = (inr query_embedding, emb_sent req w) /\
          es_log r.2
            = es_log w ++ [ReqSearch (index_name Demo.client)
                             (vector_query query_embedding k
                                min_score) k])).
Proof.
  exact (search_mode_fixed_at_construction Demo.client None
           Demo.rag_default eq_refl).
Defined.

(** An engine whose local model cannot be loaded searches by keyword. *)
Example keyword_engine_demo :
  match RAGService_init (env := Demo.env_without_model) Demo.client None with
  | inr self =>
      use_keyword_search self = true /\
      es_log (retrieve_context self "Open 9-5" None None Demo.kb_world).2
        = [ReqSearch "kb" (keyword_query "Open 9-5") 5]
  | inl _ => False
  end.
Proof. vm_compute. done. Qed.


(** After [ensure_learning_index], a 384-dimensional provider cannot store
    any conversation: the write is rejected and [False] is returned. *)
Example store_conversation_rejected_demo :
  let self := Demo.learning Demo.rag_default in
  let w1 := (ensure_learning_index self (Demo.world_of ∅)).2 in
  let r := store_conversation self "What are your hours?"
             "9-5 Mon-Fri" None None None "telegram" None None w1 in
  index_schema w1 "kb_conversations" = Some learning_mapping /\
  r.1 = inr false /\ indices r.2 = indices w1.
Proof. vm_compute. done. Qed.

(** C7, as stated, does not hold: "for an existing id [update_feedback]
    updates only the feedback field".  On the record [c1] the call also sets
    [feedback_updated_at], which the record did not have. *)
Lemma update_feedback_only_feedback_counterexample :
  ~ (forall (self : LearningService) conversation_id feedback w d w',
        stored_doc w (learning_index self) conversation_id = Some d ->
        update_feedback self conversation_id feedback w
          = (inr true, w') ->
        exists d',
          stored_doc w' (learning_index self) conversation_id = Some d' /\
          forall k, k <> "feedback" -> d' !! k = d !! k).
Proof.
  intros H.
  destruct (H (Demo.learning Demo.rag_small) "c1" "positive" Demo.conv_world
              Demo.conversation
              (update_feedback (Demo.learning Demo.rag_small)
                 "c1" "positive" Demo.conv_world).2)
    as (d' & Hd' & Hk).
  - vm_compute. reflexivity.
  - vm_compute. reflexivity.
  - specialize (Hk "feedback_updated_at" ltac:(done)).
    vm_compute in Hd'. injection Hd' as <-.
    vm_compute in Hk. discriminate Hk.
Qed.

(** The same call, by evaluation: the feedback changes from neutral to
    positive, the timestamp field appears, the question stays. *)
Example update_feedback_demo :
  let w := Demo.conv_world in
  let r := update_feedback (Demo.learning Demo.rag_small)
             "c1" "positive" w in
  r.1 = inr true /\
  (stored_doc w "kb_conversations" "c1" ≫= (.!! "feedback"))
    = Some (VStr "neutral") /\
  (stored_doc r.2 "kb_conversations" "c1" ≫= (.!! "feedback"))
    = Some (VStr "positive") /\
  (stored_doc w "kb_conversations" "c1" ≫= (.!! "feedback_updated_at"))
    = None /\
  (stored_doc r.2 "kb_conversations" "c1" ≫= (.!! "feedback_updated_at"))
    = Some (VStr "2024-01-01T00:00:0") /\
  (stored_doc r.2 "kb_conversations" "c1" ≫= (.!! "question"))
    = Some (VStr "What are your hours?").
Proof. vm_compute. done. Qed.

(** An unknown id: [False], and the server keeps exactly what it had. *)
Example update_feedback_missing_demo :
  let w := Demo.conv_world in
  let r := update_feedback (Demo.learning Demo.rag_small)
             "c2" "positive" w in
  r.1 = inr false /\ indices r.2 = indices w /\
  stored_doc r.2 "kb_conversations" "c2" = None.
Proof. vm_compute. done. Qed.

(** C1 on the code.  A batch of ten documents of which two are rejected by
    the server: the eight others are indexed, yet [bulk_index] raises
    [ElasticsearchError] instead of reporting 8 successes and 2 failures. *)
Theorem bulk_index_raises_on_rejected_documents :
  let r := bulk_index Demo.client Demo.ten_documents
             Demo.empty_kb_world in
  r.1 = inl ElasticsearchError /\
  map (fun id => bool_decide (is_Some (stored_doc r.2 "kb" id)))
      ["d0"; "d1"; "d2"; "d3"; "d4"; "d5"; "d6"; "d7"; "d8"; "d9"]
    = [true; true; true; false; true; true; true; false; true; true].
Proof. vm_compute. done. Qed.

(** The same batch without the two rejected documents is reported in full. *)
Example bulk_index_all_valid_demo :
  match (bulk_index Demo.client
           (filter (fun d => doc_accepted (kb_mapping 2) d = true)
                   Demo.ten_documents)
           Demo.empty_kb_world).1 with
  | inr r => success r = 8%nat /\ failed r = FailedItems []
  | inl _ => False
  end.
Proof. vm_compute. done. Qed.

(** A conversation stored by an engine whose embeddings fit the index. *)
Example store_conversation_demo :
  let w := Demo.conv_world in
  let r := store_conversation
             (Demo.learning Demo.rag_small) "When are you open?"
             "9-5 Mon-Fri" (Some "u7") None None "telegram" None None w in
  r.1 = inr true /\
  emb_log r.2 = [LocalEncode "tiny" "When are you open?";
                 LocalEncode "tiny" "9-5 Mon-Fri"] /\
  (stored_doc r.2 "kb_conversations" "conv_0.0_u7" ≫= (.!! "feedback"))
    = Some (VStr "neutral").
Proof. vm_compute. done. Qed.

(** With the provider down, nothing is written and [False] is returned. *)
Example store_conversation_provider_down_demo :
  let w := {| indices := indices Demo.conv_world; es_faults := [];
              es_log := []; emb_faults := [true]; emb_log := [];
              clock := 0 |} in
  let r := store_conversation
             (Demo.learning Demo.rag_small) "When are you open?"
             "9-5 Mon-Fri" (Some "u7") None None "telegram" None None w in
  r.1 = inr false /\ indices r.2 = indices w /\ es_log r.2 = [].
Proof. vm_compute. done. Qed.

(** ** The further properties at concrete inputs *)

Lemma index_document_stores_witness :
  let d := Demo.passage "p9" "Open on Monday" [1; 1]%Q in
  let r := index_document Demo.client (Some "p9") (Some d) None
             Demo.empty_kb_world in
  r.1 = inr true /\
  stored_doc r.2 "kb" "p9" = Some d /\
  (forall n i, (n, i) <> ("kb", "p9") ->
               stored_doc r.2 n i = stored_doc Demo.empty_kb_world n i) /\
  (forall n, is_Some (indices Demo.empty_kb_world !! n) ->
             index_schema r.2 n = index_schema Demo.empty_kb_world n).
Proof.
  apply (index_document_stores Demo.client "p9"
           (Demo.passage "p9" "Open on Monday" [1; 1]%Q) None
           Demo.empty_kb_world).
  - done.
  - done.
  - vm_compute. reflexivity.
Defined.


Lemma count_documents_zero_witness :
  count_documents Demo.client (Some "missing") Demo.kb_world
    = (inr O, server_called Demo.kb_world).
Proof.
  apply (count_documents_zero Demo.client (Some "missing") Demo.kb_world).
  right. vm_compute. reflexivity.
Defined.

Lemma script_create_index_keeps_existing_witness :
  let r := script_create_index Demo.kb_world in
  r.1 = inr true /\
  indices r.2 =
    match indices Demo.kb_world !! es_index settings with
    | Some _ => indices Demo.kb_world
    | None =>
        <[es_index settings :=
            {| ix_body := kb_mapping (embedding_dimension settings);
               ix_docs := ∅ |}]> (indices Demo.kb_world)
    end.
Proof.
  apply (script_create_index_keeps_existing Demo.kb_world).
  constructor.
Defined.

Lemma keyword_search_returns_ranked_witness :
  let r := keyword_search (env := Demo.env_fulltext) Demo.client "Open 9-5" 5
             Demo.faq_world in
  exists results,
    r.1 = inr results /\
    Z.of_nat (length results) <= 5 /\
    descending results /\
    Forall (fun x =>
              exists d, Demo.faq_docs !! r_id x = Some d /\
                r_text x = py_or (dict_get d "text")
                             (default (VStr EmptyString) (d !! "answer")) /\
                r_metadata x = default (VDict ∅) (d !! "metadata")) results /\
    indices r.2 = indices Demo.faq_world.
Proof.
  apply (keyword_search_returns_ranked (env := Demo.env_fulltext)
           Demo.client "Open 9-5" 5 Demo.faq_world
           (Demo.kb_index Demo.faq_docs)).
  - lia.
  - lia.
  - done.
  - vm_compute. reflexivity.
Defined.

(** The search of the witness finds the passage and then the stored answer,
    which is given with its answer as text and with empty metadata. *)
Example keyword_search_demo :
  match (keyword_search (env := Demo.env_fulltext) Demo.client "Open 9-5" 5
           Demo.faq_world).1 with
  | inr results =>
      map (fun x => (r_id x, r_score x, r_text x)) results
        = [("p1", 2%Q, VStr "Open 9-5"); ("c1", 1%Q, VStr "Open 9-5")] /\
      map r_metadata (drop 1 results) = [VDict ∅]
  | inl _ => False
  end.
Proof. vm_compute. done. Qed.

Lemma retrieve_context_bounded_witness :
  exists context,
    (retrieve_context Demo.rag_small "When are you open?" None None
       Demo.kb_world).1 = inr context /\
    Z.of_nat (length (documents context))
      <= py_or_int None (max_chunks Demo.rag_small) /\
    StronglySorted (fun a b => (d_score b <= d_score a)%Q)
      (documents context).
Proof.
  assert (H : exists c,
             (retrieve_context Demo.rag_small "When are you open?" None None
                Demo.kb_world).1 = inr c).
  { vm_compute. eexists. reflexivity. }
  destruct H as [c Hc]. exists c. split; [exact Hc|].
  apply (retrieve_context_bounded Demo.rag_small "When are you open?" None
           None Demo.kb_world c).
  - vm_compute. discriminate.
  - exact Hc.
Defined.

Lemma vector_search_fails_on_cli_documents_witness :
  (vector_search Demo.client [1; 0]%Q 2 None Demo.cli_world).1
    = inl ElasticsearchError /\
  (vector_search Demo.client [0; 1]%Q 2 None Demo.cli_world).1 = inr [].
Proof.
  assert (Hcli : forall id d,
             ix_docs (Demo.kb_index
                        (<["u1" := cli_index_document Demo.cli_doc [1; 0]%Q]>
                           ∅)) !! id = Some d ->
             exists c e, d = cli_index_document c e).
  { intros id d Hd. exists Demo.cli_doc, [1; 0]%Q. simpl in Hd.
    apply lookup_insert_Some in Hd as [[_ <-]|[_ Hd]]; [done|].
    by rewrite lookup_empty in Hd. }
  split.
  - etrans.
    + apply (vector_search_fails_on_cli_documents Demo.client [1; 0]%Q 2 None
               Demo.cli_world _ eq_refl Hcli).
    + vm_compute. reflexivity.
  - etrans.
    + apply (vector_search_fails_on_cli_documents Demo.client [0; 1]%Q 2 None
               Demo.cli_world _ eq_refl Hcli).
    + vm_compute. reflexivity.
Defined.

Lemma ingest_documents_without_embeddings_witness :
  ingest_documents (env := Demo.env_without_model) Demo.client
    Demo.rag_keyword [Demo.cli_doc; Demo.cli_doc] Demo.empty_kb_world
  = (inr {| st_total := 2; st_success := 0; st_failed := 2 |},
     Demo.empty_kb_world).
Proof.
  apply (ingest_documents_without_embeddings (env := Demo.env_without_model)
           Demo.client Demo.client None Demo.rag_keyword
           [Demo.cli_doc; Demo.cli_doc] Demo.empty_kb_world).
  - vm_compute. reflexivity.
  - reflexivity.
Defined.

Lemma ingest_file_local_models_indexes_nothing_witness :
  let w := Demo.empty_kb_world in
  let r := ingest_file 10 Demo.ingester Demo.faq_file "faq" None "en" w in
  exists result,
    r.1 = inr (Some result) /\
    ir_chunks result = 0%nat /\
    (exists chunks,
        chunk_text 10 (chunker Demo.ingester) "Open 9-5 Mon-Fri"
          (file_metadata Demo.faq_file "faq" None "en"
             (isoformat (clock w))) = Some chunks /\
        ir_errors result = FailedCount (length chunks)) /\
    indices r.2 = indices w /\ es_log r.2 = es_log w /\
    emb_log r.2 = emb_log w /\ emb_faults r.2 = emb_faults w /\
    es_faults r.2 = es_faults w.
Proof.
  apply (ingest_file_local_models_indexes_nothing 10 Demo.ingester
           Demo.client None Demo.faq_file "faq" None "en"
           Demo.empty_kb_world).
  - vm_compute. reflexivity.
  - reflexivity.
  - vm_compute. reflexivity.
  - intros content [= <-]. vm_compute. lia.
Defined.

(** The file of the witness is one chunk, reported as one error. *)
Example ingest_file_demo :
  (ingest_file 10 Demo.ingester Demo.faq_file "faq" None "en"
     Demo.empty_kb_world).1
  = inr (Some {| ir_chunks := 0; ir_errors := FailedCount 1 |}).
Proof. vm_compute. reflexivity. Qed.

Lemma ingest_directory_returns_no_chunks_witness :
  (ingest_directory 10 Demo.ingester [Demo.faq_file; Demo.unreadable_file]
     "faq" None "en" Demo.empty_kb_world).1 = Returned 2 0 2 /\
  (2 = length [Demo.faq_file; Demo.unreadable_file])%nat /\ (0 = 0)%nat.
Proof.
  assert (H : (ingest_directory 10 Demo.ingester
                 [Demo.faq_file; Demo.unreadable_file]
                 "faq" None "en" Demo.empty_kb_world).1 = Returned 2 0 2).
  { vm_compute. reflexivity. }
  split; [exact H|].
  exact (ingest_directory_returns_no_chunks 10 Demo.ingester
           [Demo.faq_file; Demo.unreadable_file] "faq" None "en"
           Demo.empty_kb_world 2 0 2 H).
Defined.

Lemma store_conversation_never_raises_witness :
  let self := Demo.learning Demo.rag_small in
  let w := Demo.conv_world in
  let r := store_conversation self "When are you open?" "9-5 Mon-Fri"
             (Some "u7") None None "telegram" None None w in
  r.1 = inr true /\
  (exists r1 r2,
      emb_log r.2 = emb_log w ++ [r1; r2] /\
      request_text r1 = "When are you open?" /\
      request_text r2 = "9-5 Mon-Fri") /\
  (exists ix doc_id d,
      es_log r.2 = es_log w ++ [ReqIndex (learning_index self) doc_id d] /\
      indices r.2 !! learning_index self = Some ix /\
      ix_docs ix !! doc_id = Some d /\
      d !! "question" = Some (VStr "When are you open?") /\
      d !! "answer" = Some (VStr "9-5 Mon-Fri") /\
      d !! "feedback" = Some (VStr "neutral")).
Proof.
  intros self w r.
  destruct (store_conversation_never_raises self "When are you open?"
              "9-5 Mon-Fri" (Some "u7") None None "telegram" None None w)
    as (b & Hb & Htrue & _ & _ & _ & Hsucc).
  assert (Hbt : b = true).
  { apply (Hsucc (local_encode "tiny" "When are you open?")
             (emb_sent (LocalEncode "tiny" "When are you open?") w)
             (local_encode "tiny" "9-5 Mon-Fri")
             (emb_sent (LocalEncode "tiny" "9-5 Mon-Fri")
                (emb_sent (LocalEncode "tiny" "When are you open?") w))).
    - vm_compute. reflexivity.
    - vm_compute. reflexivity.
    - done.
    - intros doc_id ts. reflexivity. }
  subst b. split; [exact Hb|]. exact (Htrue eq_refl).
Defined.

Lemma chunk_text_does_not_end_witness :
  chunk_text 1000 Demo.stuck_chunker Demo.opening_hours ∅ = None.
Proof.
  apply (chunk_text_does_not_end Demo.stuck_chunker Demo.opening_hours ∅
           1000).
  - vm_compute. discriminate.
  - vm_compute. discriminate.
Defined.

Lemma chunk_text_closed_form_witness :
  let self := Demo.small_chunker in
  let metadata : doc := <["source" := VStr "faq.md"]> ∅ in
  let words := py_split Demo.opening_hours in
  let step := chunk_size self - overlap self in
  exists chunks,
    chunk_text 10 self Demo.opening_hours metadata = Some chunks /\
    Z.of_nat (length words) <= Z.of_nat (length chunks) * step /\
    Z.of_nat (length chunks) * step < Z.of_nat (length words) + step /\
    forall (i : nat) c, chunks !! i = Some c ->
      let ws := py_slice words (Z.of_nat i * step)
                  (Z.of_nat i * step + chunk_size self) in
      ws <> [] /\
      Z.of_nat (length ws) <= chunk_size self /\
      chunk_text_of c = join " " ws /\
      py_split (chunk_text_of c) = ws /\
      chunk_metadata c =
        <["chunk_size" := VInt (Z.of_nat (length ws))]>
          (<["chunk_id" := VInt (Z.of_nat i + 1)]> metadata).
Proof.
  apply (chunk_text_closed_form Demo.small_chunker Demo.opening_hours
           (<["source" := VStr "faq.md"]> ∅) 10).
  - vm_compute. reflexivity.
  - vm_compute. reflexivity.
  - vm_compute. lia.
Defined.

(** The six words of the witness make three chunks of three, three and two
    words, each starting two words after the one before. *)
Example chunk_text_demo :
  (map chunk_text_of <$>
     chunk_text 10 Demo.small_chunker Demo.opening_hours ∅)
  = Some ["Open 9-5 Mon-Fri,"; "Mon-Fri, closed on"; "on Sunday"].
Proof. vm_compute. reflexivity. Qed.

Lemma chunk_text_covers_every_word_witness :
  exists chunks,
    chunk_text 10 Demo.small_chunker Demo.opening_hours ∅ = Some chunks /\
    forall w, w ∈ py_split Demo.opening_hours ->
      exists c, c ∈ chunks /\ w ∈ py_split (chunk_text_of c).
Proof.
  apply (chunk_text_covers_every_word Demo.small_chunker Demo.opening_hours
           ∅ 10).
  - vm_compute. discriminate.
  - vm_compute. reflexivity.
  - vm_compute. lia.
Defined.
